(** * simple-proxy: the domain registry and the Host-header dispatcher

    A shallow embedding of the Go sources

      - [pkg/models]               the record types,
      - [internal/database/db.go]  the registry over the SQLite table [domains],
      - [internal/proxy]           the reverse-proxy dispatcher,
      - [internal/api/handlers.go] the management handlers and middlewares,
      - [cmd/proxy/main.go]        the middleware chain of the [/api] subrouter,

    followed by the properties established about them.

    Conventions.  Go strings are [string] (sequences of bytes), Go [int] is
    [Z] (no arithmetic is performed on it), a Go [error] is the text that
    [err.Error()] returns, and a pair [(value, error)] is a [result].  The
    process log ([log.Printf], [debugLog]) is not part of the model: it is
    never sent to a client and no decision of the program reads it.

    Libraries the program calls are modelled by what they return:
    [database/sql] with the SQLite driver by a table and a schedule of
    engine failures (module [sql]), [encoding/json] and the router by the
    decoded views a request carries ([http.Payload]), [url.Parse] and the
    transport of [httputil.ReverseProxy] by parameters of the dispatcher.
    [GetAllDomains], [ListDomains], the health and whoami handlers and the
    environment configuration take no part in the properties below and
    are left out. *)

From Stdlib Require Import ZArith String Ascii List Bool.
From stdpp Require Import base strings gmap list pretty sorting.
Import ListNotations.

Local Open Scope Z_scope.
Local Open Scope string_scope.

(** ** Results and the state-and-error monad *)

Inductive result (A : Type) : Type :=
| Ok (a : A)
| Err (msg : string).
Arguments Ok {A} a.
Arguments Err {A} msg.

(** ** pkg/models *)

Module models.

(** [time.Time], kept abstract as a number of seconds. *)
Definition Time := Z.

Record Domain := mkDomain {
  Domain_Domain : string;
  Domain_IP : string;
  Domain_Port : Z;
  Domain_Protocol : string;
  Domain_CreatedAt : Time;
  Domain_UpdatedAt : Time
}.

Record CreateDomainRequest := mkCreate {
  Create_Domain : string;
  Create_IP : string;
  Create_Port : Z;
  Create_Protocol : string
}.

Record UpdateDomainRequest := mkUpdate {
  Update_IP : string;
  Update_Port : Z;
  Update_Protocol : string
}.

Record BulkCreateDomainsRequest := mkBulk {
  Bulk_Domains : list CreateDomainRequest
}.

End models.

(** ** The storage engine under [database/sql]

    The table [domains] has [domain] as its primary key, so it is a finite
    map from the key to the remaining columns.  [CURRENT_TIMESTAMP] reads
    the clock of the store.  The engine can fail for reasons of its own
    (disk, corruption, locking): [faults] is the schedule of those
    failures, one entry drawn by each call into the driver, [Some e]
    making that call fail with the error [e]. *)

Module sql.

Record Row := mkRow {
  ip : string;
  port : Z;
  protocol : string;
  created_at : models.Time;
  updated_at : models.Time
}.

Record Store := mkStore {
  table : gmap string Row;
  clock : models.Time;
  faults : list (option string)
}.

(** Computations against the store. *)
Definition M (A : Type) : Type := Store -> result A * Store.

Definition ret {A} (a : A) : M A := fun st => (Ok a, st).
Definition fail {A} (e : string) : M A := fun st => (Err e, st).
Definition bind {A B} (m : M A) (k : A -> M B) : M B :=
  fun st => match m st with
            | (Ok a, st') => k a st'
            | (Err e, st') => (Err e, st')
            end.

(** [fmt.Errorf(prefix + ": %w", err)] around a failing call. *)
Definition wrap {A} (prefix : string) (m : M A) : M A :=
  fun st => match m st with
            | (Ok a, st') => (Ok a, st')
            | (Err e, st') => (Err (prefix +:+ e), st')
            end.

Definition set_table (t : gmap string Row) (st : Store) : Store :=
  {| table := t; clock := clock st; faults := faults st |}.

(** One call into the driver: the next entry of the schedule decides
    whether the engine itself fails. *)
Definition driver : M unit :=
  fun st => match faults st with
            | [] => (Ok tt, st)
            | None :: fs =>
                (Ok tt, {| table := table st; clock := clock st; faults := fs |})
            | Some e :: fs =>
                (Err e, {| table := table st; clock := clock st; faults := fs |})
            end.

(** The error of the driver for a second row with the same primary key. *)
Definition ErrUnique : string :=
  "constraint failed: UNIQUE constraint failed: domains.domain (1555)".

(** [INSERT INTO domains (domain, ip, port, protocol) VALUES (?, ?, ?, ?)]
    on the table [t] at time [now]. *)
Definition insert_row (now : models.Time) (domain ip : string) (port : Z)
    (protocol : string) (t : gmap string Row) : result (gmap string Row) :=
  match t !! domain with
  | Some _ => Err ErrUnique
  | None =>
      Ok (<[domain := {| ip := ip; port := port; protocol := protocol;
                         created_at := now; updated_at := now |}]> t)
  end.

(** [UPDATE domains SET ip = ?, port = ?, protocol = ?,
    updated_at = CURRENT_TIMESTAMP WHERE domain = ?]: the new table and
    the number of rows affected. *)
Definition update_row (now : models.Time) (ip : string) (port : Z)
    (protocol domain : string) (t : gmap string Row) : gmap string Row * Z :=
  match t !! domain with
  | Some old =>
      (<[domain := {| ip := ip; port := port; protocol := protocol;
                      created_at := created_at old; updated_at := now |}]> t, 1)
  | None => (t, 0)
  end.

(** [DELETE FROM domains WHERE domain = ?]. *)
Definition delete_row (domain : string) (t : gmap string Row)
    : gmap string Row * Z :=
  match t !! domain with
  | Some _ => (delete domain t, 1)
  | None => (t, 0)
  end.

(** [db.conn.Exec] of the INSERT statement outside a transaction. *)
Definition ExecInsert (domain ip : string) (port : Z) (protocol : string)
    : M unit :=
  bind driver (fun _ st =>
    match insert_row (clock st) domain ip port protocol (table st) with
    | Ok t' => (Ok tt, set_table t' st)
    | Err e => (Err e, st)
    end).

(** [db.conn.Exec] of the UPDATE statement; the result is
    [RowsAffected], which this driver computes without failing. *)
Definition ExecUpdate (ip : string) (port : Z) (protocol domain : string)
    : M Z :=
  bind driver (fun _ st =>
    let '(t', n) := update_row (clock st) ip port protocol domain (table st) in
    (Ok n, set_table t' st)).

(** [db.conn.Exec] of the DELETE statement. *)
Definition ExecDelete (domain : string) : M Z :=
  bind driver (fun _ st =>
    let '(t', n) := delete_row domain (table st) in
    (Ok n, set_table t' st)).

(** [db.conn.QueryRow(...).Scan(...)] of the SELECT by key: [None] is
    [sql.ErrNoRows]. *)
Definition QueryRow (domain : string) : M (option Row) :=
  bind driver (fun _ st => (Ok (table st !! domain), st)).

(** A transaction works on its own copy of the table; the copy replaces
    the table at [Commit] and is dropped by [Rollback]. *)
Record Tx := mkTx { pending : gmap string Row }.

Definition Begin : M Tx :=
  bind driver (fun _ st => (Ok {| pending := table st |}, st)).

Definition Prepare (tx : Tx) : M unit := driver.

(** [stmt.Exec] of the prepared INSERT inside the transaction. *)
Definition TxExecInsert (tx : Tx) (domain ip : string) (port : Z)
    (protocol : string) : M Tx :=
  bind driver (fun _ st =>
    match insert_row (clock st) domain ip port protocol (pending tx) with
    | Ok t' => (Ok {| pending := t' |}, st)
    | Err e => (Err e, st)
    end).

Definition Commit (tx : Tx) : M unit :=
  bind driver (fun _ st => (Ok tt, set_table (pending tx) st)).

(** [ORDER BY domain]: the rows of the table by increasing key, the keys
    compared byte by byte. *)
Definition byDomain (a b : string * Row) : Prop := String.le a.1 b.1.

Definition byDomain_dec (a b : string * Row) : Decision (byDomain a b) :=
  String.le_dec a.1 b.1.

Definition orderByDomain (t : gmap string Row) : list (string * Row) :=
  @merge_sort _ byDomain byDomain_dec (map_to_list t).

(** [db.conn.Query] of the SELECT of all rows, read to its end. *)
Definition Query : M (list (string * Row)) :=
  bind driver (fun _ st => (Ok (orderByDomain (table st)), st)).

(** [rows.Err()] after the iteration. *)
Definition RowsErr : M unit := driver.

(** [db.conn.Exec] of [CREATE TABLE IF NOT EXISTS domains]: the rows of an
    existing table stay. *)
Definition ExecCreateTable : M unit := driver.

End sql.

Notation "x <- m ;; k" := (sql.bind m (fun x => k))
  (at level 100, m at next level, right associativity).

(** ** internal/database/db.go *)

Module database.
Import models sql.

Definition toDomain (domain : string) (r : Row) : Domain :=
  {| Domain_Domain := domain; Domain_IP := ip r; Domain_Port := port r;
     Domain_Protocol := protocol r;
     Domain_CreatedAt := created_at r; Domain_UpdatedAt := updated_at r |}.

(** [DB.GetDomain]: [Ok None] is the pair [(nil, nil)]. *)
Definition GetDomain (domain : string) : M (option Domain) :=
  row <- wrap "failed to get domain: " (QueryRow domain) ;;
  match row with
  | None => ret None
  | Some r => ret (Some (toDomain domain r))
  end.

(** [DB.CreateDomain]. *)
Definition CreateDomain (req : CreateDomainRequest) : M (option Domain) :=
  let protocol := Create_Protocol req in
  let protocol := if String.eqb protocol "" then "http" else protocol in
  _ <- wrap "failed to create domain: "
         (ExecInsert (Create_Domain req) (Create_IP req) (Create_Port req)
            protocol) ;;
  GetDomain (Create_Domain req).

(** [DB.UpdateDomain]. *)
Definition UpdateDomain (domain : string) (req : UpdateDomainRequest)
    : M (option Domain) :=
  let update (protocol : string) : M (option Domain) :=
    rowsAffected <- wrap "failed to update domain: "
                      (ExecUpdate (Update_IP req) (Update_Port req) protocol
                         domain) ;;
    if Z.eqb rowsAffected 0 then ret None else GetDomain domain in
  if String.eqb (Update_Protocol req) "" then
    existing <- wrap "failed to get existing domain: " (GetDomain domain) ;;
    match existing with
    | None => ret None
    | Some e => update (Domain_Protocol e)
    end
  else update (Update_Protocol req).

(** [DB.DeleteDomain]. *)
Definition DeleteDomain (domain : string) : M unit :=
  rowsAffected <- wrap "failed to delete domain: " (ExecDelete domain) ;;
  if Z.eqb rowsAffected 0 then fail "domain not found" else ret tt.

(** The insertion loop of [BulkCreateDomains]: the names inserted so
    far are accumulated in [domainNames]. *)
Fixpoint bulkInsertLoop (tx : Tx) (domains : list CreateDomainRequest)
    (domainNames : list string) : M (Tx * list string) :=
  match domains with
  | [] => ret (tx, domainNames)
  | req :: rest =>
      let protocol := Create_Protocol req in
      let protocol := if String.eqb protocol "" then "http" else protocol in
      tx' <- wrap ("failed to create domain " +:+ Create_Domain req +:+ ": ")
               (TxExecInsert tx (Create_Domain req) (Create_IP req)
                  (Create_Port req) protocol) ;;
      bulkInsertLoop tx' rest (domainNames ++ [Create_Domain req])
  end.

(** The loop that reads the created records back after the commit. *)
Fixpoint bulkFetchLoop (domainNames : list string)
    (createdDomains : list Domain) : M (list Domain) :=
  match domainNames with
  | [] => ret createdDomains
  | domainName :: rest =>
      domain <- wrap ("failed to fetch created domain " +:+ domainName +:+ ": ")
                  (GetDomain domainName) ;;
      match domain with
      | Some d => bulkFetchLoop rest (createdDomains ++ [d])
      | None => bulkFetchLoop rest createdDomains
      end
  end.

(** [DB.BulkCreateDomains].
    Every return before the commit runs the deferred [tx.Rollback()],
    which drops the transaction's copy: the table of the store is the
    one the call started from. *)
Definition BulkCreateDomains (domains : list CreateDomainRequest)
    : M (list Domain) :=
  match domains with
  | [] => ret []
  | _ =>
      tx <- wrap "failed to begin transaction: " Begin ;;
      _ <- wrap "failed to prepare statement: " (Prepare tx) ;;
      inserted <- bulkInsertLoop tx domains [] ;;
      _ <- wrap "failed to commit transaction: " (Commit (fst inserted)) ;;
      bulkFetchLoop (snd inserted) []
  end.

Section Listing.

(** [time.Parse("2006-01-02 15:04:05", ts)] with its error dropped, on
    the text the driver hands back for a timestamp column: the zero time
    when that text has another layout. *)
Variable parseListed : Time -> Time.

Definition listedDomain (row : string * Row) : Domain :=
  {| Domain_Domain := row.1; Domain_IP := ip row.2; Domain_Port := port row.2;
     Domain_Protocol := protocol row.2;
     Domain_CreatedAt := parseListed (created_at row.2);
     Domain_UpdatedAt := parseListed (updated_at row.2) |}.

(** [DB.GetAllDomains].  Scanning a row of this table into the fields of
    a [Domain] does not fail. *)
Definition GetAllDomains : M (list Domain) :=
  rows <- wrap "failed to query domains: " Query ;;
  _ <- wrap "error iterating domains: " RowsErr ;;
  ret (map listedDomain rows).

End Listing.

(** [DB.initSchema]. *)
Definition initSchema : M unit := ExecCreateTable.

(** [database.New(dbPath)]: [sql.Open] with a registered driver does not
    fail, the schema statement can. *)
Definition New (dbPath : string) : M unit :=
  wrap "failed to initialize schema: " initSchema.

End database.

(** ** The functions of Go's [strings] package used by the program *)

Module strings.

(** [strings.LastIndex(s, substr)]: the index of the last occurrence of
    [substr] in [s], or [-1] when there is none.  [i] is the index of
    the first byte of the part of [s] still to be scanned. *)
Fixpoint lastIndexFrom (substr s : string) (i : Z) : Z :=
  match s with
  | EmptyString => if String.prefix substr EmptyString then i else -1
  | String _ s' =>
      let later := lastIndexFrom substr s' (i + 1) in
      if Z.eqb later (-1)
      then (if String.prefix substr s then i else -1)
      else later
  end.

Definition LastIndex (s substr : string) : Z := lastIndexFrom substr s 0.

(** The slice expression [s[:idx]]. *)
Definition sliceTo (s : string) (idx : Z) : string :=
  String.substring 0 (Z.to_nat idx) s.

(** Does the byte [c] occur in [s]? *)
Fixpoint containsByte (c : ascii) (s : string) : bool :=
  match s with
  | EmptyString => false
  | String b s' => Ascii.eqb b c || containsByte c s'
  end.

End strings.

(** ** The parts of [net/http] and [net/url] the program touches *)

Module http.
Import models.

(** [url.URL]. *)
Record URL := mkURL {
  Scheme : string;
  Opaque : string;
  URL_Host : string;
  Path : string;
  RawPath : string;
  RawQuery : string;
  Fragment : string;
  RawFragment : string
}.

(** What the JSON decoders and the router make of a request: each field
    is the outcome of the library call named in its comment. *)
Record Payload := mkPayload {
  (** [url.PathUnescape(mux.Vars(r)["domain"])] *)
  pathDomain : result string;
  (** [json.NewDecoder(r.Body).Decode(&req)], [req] a [CreateDomainRequest] *)
  asCreate : result CreateDomainRequest;
  (** the same with [req] an [UpdateDomainRequest] *)
  asUpdate : result UpdateDomainRequest;
  (** [io.ReadAll(r.Body)] *)
  readAll : result unit;
  (** [json.Unmarshal(bodyBytes, &domains)], [domains] a slice *)
  asArray : result (list CreateDomainRequest);
  (** [json.Unmarshal(bodyBytes, &req)], [req] a [BulkCreateDomainsRequest] *)
  asBulk : result BulkCreateDomainsRequest
}.

(** [http.Request]; [Authorization] is [r.Header.Get("Authorization")]. *)
Record Request := mkRequest {
  Method : string;
  Url : URL;
  Host : string;
  RequestURI : string;
  RemoteAddr : string;
  Authorization : string;
  Body : Payload
}.

Inductive Content :=
| Text (s : string)
| JSONDomain (d : option Domain)
| JSONDomains (l : list Domain)
| NoContent
| Stream (bytes : string).

(** What has been written to the [http.ResponseWriter]. *)
Record Response := mkResponse {
  StatusCode : Z;
  ContentType : string;
  Written : Content
}.

Definition StatusOK : Z := 200.
Definition StatusCreated : Z := 201.
Definition StatusNoContent : Z := 204.
Definition StatusBadRequest : Z := 400.
Definition StatusUnauthorized : Z := 401.
Definition StatusForbidden : Z := 403.
Definition StatusNotFound : Z := 404.
Definition StatusInternalServerError : Z := 500.
Definition StatusBadGateway : Z := 502.

Definition newline : string := String (ascii_of_nat 10) EmptyString.

(** [http.Error(w, error, code)]: the text followed by a newline. *)
Definition Error (error : string) (code : Z) : Response :=
  {| StatusCode := code;
     ContentType := "text/plain; charset=utf-8";
     Written := Text (error +:+ newline) |}.

(** A JSON reply: [w.Header().Set("Content-Type", "application/json")],
    [w.WriteHeader(code)], [json.NewEncoder(w).Encode(v)]. *)
Definition JSON (code : Z) (v : Content) : Response :=
  {| StatusCode := code; ContentType := "application/json"; Written := v |}.

(** A handler writes one response and may change the store. *)
Definition Handler : Type := Request -> sql.Store -> Response * sql.Store.

End http.

(** ** internal/proxy: the dispatcher *)

Module proxy.
Import models sql http.

Section Dispatcher.

(** [url.Parse]: the parsed locator or the parse error. *)
Variable url_Parse : string -> result URL.

(** The transport of the reverse proxy: the backend's response to the
    outbound request, or the error met while contacting the backend. *)
Variable RoundTrip : Request -> result Response.

(** Lines 58-63 of [ServeHTTP]: strip the port from the host. *)
Definition domainName (host : string) : string :=
  let idx := strings.LastIndex host ":" in
  if negb (Z.eqb idx (-1)) then strings.sliceTo host idx else host.

(** [fmt.Sprintf("%s://%s:%d", domain.Protocol, domain.IP, domain.Port)]. *)
Definition targetURL (domain : Domain) : string :=
  Domain_Protocol domain +:+ "://" +:+ Domain_IP domain +:+ ":"
    +:+ pretty (Domain_Port domain).

(** Lines 79-82: the default protocol, set on the record that
    [GetDomain] returned (a value of its own, not the stored row). *)
Definition defaultProtocol (domain : Domain) : Domain :=
  if String.eqb (Domain_Protocol domain) ""
  then {| Domain_Domain := Domain_Domain domain;
          Domain_IP := Domain_IP domain;
          Domain_Port := Domain_Port domain;
          Domain_Protocol := "http";
          Domain_CreatedAt := Domain_CreatedAt domain;
          Domain_UpdatedAt := Domain_UpdatedAt domain |}
  else domain.

(** [proxy.Director]: [r] is the inbound request the closure captured,
    [req] the outbound request being prepared. *)
Definition Director (target : URL) (r : Request) (req : Request) : Request :=
  {| Method := Method req;
     Url := {| Scheme := Scheme target;
               Opaque := Opaque (Url req);
               URL_Host := URL_Host target;
               Path := Path (Url r);
               RawPath := RawPath (Url r);
               RawQuery := RawQuery (Url r);
               Fragment := Fragment (Url r);
               RawFragment := RawFragment (Url req) |};
     Host := URL_Host target;
     RequestURI := "";
     RemoteAddr := RemoteAddr req;
     Authorization := Authorization req;
     Body := Body req |}.

(** [proxy.ErrorHandler]. *)
Definition ErrorHandler (r : Request) (err : string) : Response :=
  Error ("Proxy error: " +:+ err) StatusBadGateway.

(** [httputil.ReverseProxy.ServeHTTP]: the director prepares a copy of
    the inbound request, the transport sends it, and the backend's
    response is relayed, or the error handler answers. *)
Definition ReverseProxy_ServeHTTP (director : Request -> Request)
    (errorHandler : Request -> string -> Response) (r : Request) : Response :=
  let outreq := director r in
  match RoundTrip outreq with
  | Ok res => res
  | Err err => errorHandler outreq err
  end.

(** [func (p *Proxy) ServeHTTP(w http.ResponseWriter, r *http.Request)]. *)
Definition ServeHTTP : Handler := fun r st =>
  let host := Host r in
  if String.eqb host "" then
    (Error "Missing Host header" StatusBadRequest, st)
  else
    let domainName := domainName host in
    match database.GetDomain domainName st with
    | (Err _, st') =>
        (Error "Internal server error" StatusInternalServerError, st')
    | (Ok None, st') => (Error "Domain not found" StatusNotFound, st')
    | (Ok (Some domain), st') =>
        let domain := defaultProtocol domain in
        let targetURL := targetURL domain in
        match url_Parse targetURL with
        | Err _ =>
            (Error "Invalid target configuration" StatusInternalServerError,
             st')
        | Ok target =>
            (ReverseProxy_ServeHTTP (Director target r) ErrorHandler r, st')
        end
    end.

End Dispatcher.

End proxy.

(** ** internal/api/handlers.go *)

Module api.
Import models sql http.

Record Handlers := mkHandlers {
  apiKey : string;
  authToken : string
}.

Definition NewHandlers (apiKey : string) : Handlers :=
  {| apiKey := apiKey; authToken := "Bearer " +:+ apiKey |}.

(** [DomainMiddleware(allowedDomain)(next)]. *)
Definition DomainMiddleware (allowedDomain : string) (next : Handler) : Handler :=
  fun r st =>
    let host := Host r in
    let idx := strings.LastIndex host ":" in
    let domainName :=
      if negb (Z.eqb idx (-1)) then strings.sliceTo host idx else host in
    if negb (String.eqb domainName allowedDomain) then
      (Error "Forbidden: API access restricted to specific domain"
         StatusForbidden, st)
    else next r st.

(** [h.AuthMiddleware(next)]. *)
Definition AuthMiddleware (h : Handlers) (next : Handler) : Handler :=
  fun r st =>
    let authHeader := Authorization r in
    if negb (String.eqb authHeader (authToken h)) then
      (Error "Unauthorized" StatusUnauthorized, st)
    else next r st.

(** [h.GetDomain]: GET /api/config/:domain. *)
Definition GetDomain (h : Handlers) : Handler := fun r st =>
  match pathDomain (Body r) with
  | Err _ => (Error "Invalid domain parameter" StatusBadRequest, st)
  | Ok domain =>
      match database.GetDomain domain st with
      | (Err e, st') =>
          (Error ("Failed to retrieve domain: " +:+ e)
             StatusInternalServerError, st')
      | (Ok None, st') => (Error "Domain not found" StatusNotFound, st')
      | (Ok (Some d), st') => (JSON StatusOK (JSONDomain (Some d)), st')
      end
  end.

Definition withProtocol (req : CreateDomainRequest) (protocol : string)
    : CreateDomainRequest :=
  {| Create_Domain := Create_Domain req; Create_IP := Create_IP req;
     Create_Port := Create_Port req; Create_Protocol := protocol |}.

(** The test [domain == "" || ip == "" || port == 0] of the two creation
    handlers. *)
Definition missingFields (req : CreateDomainRequest) : bool :=
  String.eqb (Create_Domain req) "" || String.eqb (Create_IP req) ""
  || Z.eqb (Create_Port req) 0.

(** [h.CreateDomain]: POST /api/config. *)
Definition CreateDomain (h : Handlers) : Handler := fun r st =>
  match asCreate (Body r) with
  | Err e => (Error ("Invalid request body: " +:+ e) StatusBadRequest, st)
  | Ok req =>
      if missingFields req then
        (Error "Missing required fields: domain, ip, port" StatusBadRequest, st)
      else
        let req :=
          if String.eqb (Create_Protocol req) "" then withProtocol req "http"
          else req in
        match database.CreateDomain req st with
        | (Err e, st') =>
            (Error ("Failed to create domain: " +:+ e)
               StatusInternalServerError, st')
        | (Ok domain, st') => (JSON StatusCreated (JSONDomain domain), st')
        end
  end.

(** [h.UpdateDomain]: PUT /api/config/:domain. *)
Definition UpdateDomain (h : Handlers) : Handler := fun r st =>
  match pathDomain (Body r) with
  | Err _ => (Error "Invalid domain parameter" StatusBadRequest, st)
  | Ok domain =>
      match asUpdate (Body r) with
      | Err e => (Error ("Invalid request body: " +:+ e) StatusBadRequest, st)
      | Ok req =>
          if String.eqb (Update_IP req) "" || Z.eqb (Update_Port req) 0 then
            (Error "Missing required fields: ip, port" StatusBadRequest, st)
          else
            let req :=
              if String.eqb (Update_Protocol req) "" then
                {| Update_IP := Update_IP req; Update_Port := Update_Port req;
                   Update_Protocol := "http" |}
              else req in
            match database.UpdateDomain domain req st with
            | (Err e, st') =>
                (Error ("Failed to update domain: " +:+ e)
                   StatusInternalServerError, st')
            | (Ok None, st') => (Error "Domain not found" StatusNotFound, st')
            | (Ok (Some d), st') => (JSON StatusOK (JSONDomain (Some d)), st')
            end
      end
  end.

(** [h.DeleteDomain]: DELETE /api/config/:domain. *)
Definition DeleteDomain (h : Handlers) : Handler := fun r st =>
  match pathDomain (Body r) with
  | Err _ => (Error "Invalid domain parameter" StatusBadRequest, st)
  | Ok domain =>
      match database.DeleteDomain domain st with
      | (Err e, st') =>
          if String.eqb e "domain not found" then
            (Error "Domain not found" StatusNotFound, st')
          else
            (Error ("Failed to delete domain: " +:+ e)
               StatusInternalServerError, st')
      | (Ok _, st') =>
          ({| StatusCode := StatusNoContent; ContentType := "";
              Written := NoContent |}, st')
      end
  end.

(** The validation loop of [BulkCreateDomains]: the index of the first
    record with a missing field, or the records with the default
    protocol filled in. *)
Fixpoint validateAll (domains : list CreateDomainRequest) (i : Z)
    : Z + list CreateDomainRequest :=
  match domains with
  | [] => inr []
  | domain :: rest =>
      if missingFields domain then inl i
      else
        let domain :=
          if String.eqb (Create_Protocol domain) ""
          then withProtocol domain "http" else domain in
        match validateAll rest (i + 1) with
        | inl j => inl j
        | inr rest' => inr (domain :: rest')
        end
  end.

(** [h.BulkCreateDomains]: POST /api/config/bulk. *)
Definition BulkCreateDomains (h : Handlers) : Handler := fun r st =>
  match readAll (Body r) with
  | Err e =>
      (Error ("Failed to read request body: " +:+ e) StatusBadRequest, st)
  | Ok _ =>
      let decoded :=
        match asArray (Body r) with
        | Ok domains => Some domains
        | Err _ =>
            match asBulk (Body r) with
            | Err _ => None
            | Ok req => Some (Bulk_Domains req)
            end
        end in
      match decoded with
      | None =>
          (Error "Invalid request body: expected array of domains or object with 'domains' field"
             StatusBadRequest, st)
      | Some [] => (Error "No domains provided" StatusBadRequest, st)
      | Some domains =>
          match validateAll domains 0 with
          | inl i =>
              (Error ("Missing required fields in domain at index "
                        +:+ pretty i +:+ ": domain, ip, port")
                 StatusBadRequest, st)
          | inr domains =>
              match database.BulkCreateDomains domains st with
              | (Err e, st') =>
                  (Error ("Failed to create domains: " +:+ e)
                     StatusInternalServerError, st')
              | (Ok createdDomains, st') =>
                  (JSON StatusCreated (JSONDomains createdDomains), st')
              end
          end
      end
  end.

(** [h.ListDomains]: GET /api/config. *)
Definition ListDomains (parseListed : Time -> Time) (h : Handlers) : Handler :=
  fun r st =>
    match database.GetAllDomains parseListed st with
    | (Err e, st') =>
        (Error ("Failed to retrieve domains: " +:+ e)
           StatusInternalServerError, st')
    | (Ok domains, st') => (JSON StatusOK (JSONDomains domains), st')
    end.

End api.

(** ** cmd/proxy/main.go: the chain in front of every [/api] route *)

Module main.
Import http.

(** [config.Config]. *)
Record Config := mkConfig {
  ProxyAPIKey : string;
  APIDomain : string;
  DBPath : string;
  Port : Z;
  Debug : bool
}.

(** [apiRouter.Use(api.DomainMiddleware(cfg.APIDomain))] then
    [apiRouter.Use(apiHandlers.AuthMiddleware)]: the middleware added
    first is the outermost. *)
Definition apiRouter (cfg : Config) (route : api.Handlers -> Handler) : Handler :=
  let apiHandlers := api.NewHandlers (ProxyAPIKey cfg) in
  api.DomainMiddleware (APIDomain cfg)
    (api.AuthMiddleware apiHandlers (route apiHandlers)).

End main.

(** ** internal/config and the functions of [strconv] it calls *)

Module strconv.

(** The value of a decimal digit. *)
Definition digit (c : ascii) : option Z :=
  let n := Z.of_N (N_of_ascii c) in
  if (48 <=? n)%Z && (n <=? 57)%Z then Some (n - 48) else None.

Fixpoint digits (s : string) (acc : Z) : option Z :=
  match s with
  | EmptyString => Some acc
  | String c s' =>
      match digit c with
      | None => None
      | Some d => digits s' (acc * 10 + d)
      end
  end.

Definition minInt : Z := - 2 ^ 63.
Definition maxInt : Z := 2 ^ 63 - 1.

(** [strconv.Atoi]: an optional sign and at least one decimal digit, the
    value within the 64-bit [int].  The error texts stand for the
    [NumError] values, which the program drops. *)
Definition Atoi (s : string) : result Z :=
  match s with
  | EmptyString => Err "invalid syntax"
  | String c rest =>
      let neg := Ascii.eqb c "-" in
      let body := if neg || Ascii.eqb c "+" then rest else s in
      match body with
      | EmptyString => Err "invalid syntax"
      | _ =>
          match digits body 0 with
          | None => Err "invalid syntax"
          | Some n =>
              let v := if neg then - n else n in
              if (minInt <=? v)%Z && (v <=? maxInt)%Z then Ok v
              else Err "value out of range"
          end
      end
  end.

(** [strconv.ParseBool]. *)
Definition ParseBool (str : string) : result bool :=
  if existsb (String.eqb str) ["1"; "t"; "T"; "TRUE"; "true"; "True"]
  then Ok true
  else if existsb (String.eqb str) ["0"; "f"; "F"; "FALSE"; "false"; "False"]
  then Ok false
  else Err "invalid syntax".

End strconv.

Module config.
Import main.

(** The environment of the process; [os.Getenv] gives the empty string
    for a variable that is not set. *)
Definition Getenv (env : gmap string string) (key : string) : string :=
  default "" (env !! key).

Section Environment.

Variable env : gmap string string.

Definition getEnv (key defaultValue : string) : string :=
  let value := Getenv env key in
  if negb (String.eqb value "") then value else defaultValue.

Definition getEnvAsInt (key : string) (defaultValue : Z) : Z :=
  let valueStr := Getenv env key in
  if String.eqb valueStr "" then defaultValue
  else match strconv.Atoi valueStr with
       | Err _ => defaultValue
       | Ok value => value
       end.

Definition getEnvAsBool (key : string) (defaultValue : bool) : bool :=
  let valueStr := Getenv env key in
  if String.eqb valueStr "" then defaultValue
  else match strconv.ParseBool valueStr with
       | Err _ => defaultValue
       | Ok value => value
       end.

(** [config.Load]. *)
Definition Load : Config :=
  {| ProxyAPIKey := Getenv env "PROXY_API_KEY";
     APIDomain := Getenv env "PROXY_API_DOMAIN";
     DBPath := getEnv "DB_PATH" "data/proxy.db";
     Port := getEnvAsInt "PORT" 80;
     Debug := getEnvAsBool "DEBUG" false |}.

End Environment.

End config.

(** ** cmd/proxy/main.go: [func init()] *)

Module cmd.
Import sql main.

(** [init]: [log.Fatal] ends the process with the message, here [Err]. *)
Definition init (env : gmap string string) : M Config :=
  let cfg := config.Load env in
  if String.eqb (ProxyAPIKey cfg) "" then
    fail "PROXY_API_KEY environment variable is required"
  else if String.eqb (APIDomain cfg) "" then
    fail "PROXY_API_DOMAIN environment variable is required"
  else
    _ <- wrap "Failed to initialize database: " (database.New (DBPath cfg)) ;;
    ret cfg.

End cmd.

(** ** Vocabulary of the statements *)

Module props.
Import models sql.

(** The row an accepted creation request leaves in the table at time
    [now]. *)
Definition storedRow (now : Time) (req : CreateDomainRequest) : Row :=
  {| ip := Create_IP req; port := Create_Port req;
     protocol := if String.eqb (Create_Protocol req) "" then "http"
                 else Create_Protocol req;
     created_at := now; updated_at := now |}.

Definition keys (batch : list CreateDomainRequest) : list string :=
  map Create_Domain batch.

(** Every record of the batch is in the table [t]. *)
Definition persisted (now : Time) (batch : list CreateDomainRequest)
    (t : gmap string Row) : Prop :=
  forall req, req ∈ batch -> t !! Create_Domain req = Some (storedRow now req).

(** Some record of the batch duplicates a stored domain or another
    record of the batch. *)
Definition hasDuplicate (batch : list CreateDomainRequest)
    (t : gmap string Row) : Prop :=
  (exists req, req ∈ batch /\ is_Some (t !! Create_Domain req))
  \/ ~ NoDup (keys batch).





(** A required field of the creation request is missing. *)
Definition fieldMissing (req : CreateDomainRequest) : Prop :=
  Create_Domain req = "" \/ Create_IP req = "" \/ Create_Port req = 0.

(** The body of a bulk request holds [batch], as a bare array or under
    the field [domains] of an object. *)
Definition bulkBody (r : http.Request) (batch : list CreateDomainRequest)
    : Prop :=
  http.readAll (http.Body r) = Ok tt
  /\ (http.asArray (http.Body r) = Ok batch
      \/ ((exists e, http.asArray (http.Body r) = Err e)
          /\ http.asBulk (http.Body r) = Ok {| Bulk_Domains := batch |})).

(** The text sent to the client contains [detail]. *)
Definition exposes (resp : http.Response) (detail : string) : Prop :=
  exists before after,
    http.Written resp = http.Text (before +:+ detail +:+ after).

(** The inbound request [r] as it leaves for the backend [target]:
    scheme, host and destination are the backend's, the request URI of
    the inbound leg is cleared, everything else is [r]'s. *)
Definition rewritten (target : http.URL) (r : http.Request) : http.Request :=
  {| http.Method := http.Method r;
     http.Url := {| http.Scheme := http.Scheme target;
                    http.Opaque := http.Opaque (http.Url r);
                    http.URL_Host := http.URL_Host target;
                    http.Path := http.Path (http.Url r);
                    http.RawPath := http.RawPath (http.Url r);
                    http.RawQuery := http.RawQuery (http.Url r);
                    http.Fragment := http.Fragment (http.Url r);
                    http.RawFragment := http.RawFragment (http.Url r) |};
     http.Host := http.URL_Host target;
     http.RequestURI := "";
     http.RemoteAddr := http.RemoteAddr r;
     http.Authorization := http.Authorization r;
     http.Body := http.Body r |}.

(** The host, once the suffix from its last colon is removed when it
    has a colon, is not [allowed]. *)
Definition strippedHostDiffers (host allowed : string) : Prop :=
  (strings.containsByte ":" host = false /\ host <> allowed)
  \/ (exists d p, host = d +:+ ":" +:+ p
                  /\ strings.containsByte ":" p = false /\ d <> allowed).


(** The row an update with the scheme [protocol] leaves in place of
    [old]. *)
Definition updatedRow (now : Time) (req : UpdateDomainRequest)
    (protocol : string) (old : Row) : Row :=
  {| ip := Update_IP req; port := Update_Port req; protocol := protocol;
     created_at := created_at old; updated_at := now |}.

(** A creation request with the default scheme filled in. *)
Definition normalized (req : CreateDomainRequest) : CreateDomainRequest :=
  {| Create_Domain := Create_Domain req; Create_IP := Create_IP req;
     Create_Port := Create_Port req;
     Create_Protocol := if String.eqb (Create_Protocol req) "" then "http"
                        else Create_Protocol req |}.

(** The registry's contents and its clock are the same in both stores
    (the schedule of engine failures may have advanced). *)
Definition sameData (st st' : Store) : Prop :=
  table st' = table st /\ clock st' = clock st.

(** The record [DB.GetDomain] returns for a creation request accepted at
    time [now]. *)
Definition createdRecord (now : Time) (req : CreateDomainRequest) : Domain :=
  {| Domain_Domain := Create_Domain req; Domain_IP := Create_IP req;
     Domain_Port := Create_Port req;
     Domain_Protocol := if String.eqb (Create_Protocol req) "" then "http"
                        else Create_Protocol req;
     Domain_CreatedAt := now; Domain_UpdatedAt := now |}.

(** The table [t] with the row of one more accepted creation request. *)
Definition added (now : Time) (t : gmap string Row)
    (req : CreateDomainRequest) : gmap string Row :=
  <[Create_Domain req := storedRow now req]> t.

(** The store when the clock shows [now]. *)
Definition atTime (now : Time) (st : Store) : Store :=
  {| table := table st; clock := now; faults := faults st |}.

(** The store after the records were inserted one after the other with
    [DB.CreateDomain], each at the time paired with it. *)
Definition insertedOneByOneAt (steps : list (Time * CreateDomainRequest))
    (st : Store) : Store :=
  foldl (fun s step => snd (database.CreateDomain step.2 (atTime step.1 s)))
    st steps.

(** A row without its two timestamps. *)
Definition untimed (row : Row) : string * Z * string :=
  (ip row, port row, protocol row).

(** One more row, without timestamps, for an accepted creation request. *)
Definition addedUntimed (t : gmap string (string * Z * string))
    (req : CreateDomainRequest) : gmap string (string * Z * string) :=
  <[Create_Domain req := untimed (storedRow 0 req)]> t.


(** The request [r] with another [Host]. *)
Definition withHost (r : http.Request) (host : string) : http.Request :=
  {| http.Method := http.Method r; http.Url := http.Url r;
     http.Host := host; http.RequestURI := http.RequestURI r;
     http.RemoteAddr := http.RemoteAddr r;
     http.Authorization := http.Authorization r;
     http.Body := http.Body r |}.

(** A status of the class 4xx. *)
Definition clientError (code : Z) : Prop := 400 <= code < 500.

(** The host names the administrative domain, alone or followed by a
    port. *)
Definition hostIsAllowed (host allowed : string) : Prop :=
  (strings.containsByte ":" allowed = false /\ host = allowed)
  \/ (exists p, strings.containsByte ":" p = false
                /\ host = allowed +:+ ":" +:+ p).

End props.

(** ** Concrete stores and requests used in the examples *)

Module fixtures.
Import models sql http.

Definition emptyStore : Store :=
  {| table := ∅; clock := 100; faults := [] |}.

Definition a_com : CreateDomainRequest :=
  {| Create_Domain := "a.com"; Create_IP := "10.0.0.1";
     Create_Port := 8080; Create_Protocol := "https" |}.

Definition b_com : CreateDomainRequest :=
  {| Create_Domain := "b.com"; Create_IP := "10.0.0.2";
     Create_Port := 9090; Create_Protocol := "" |}.

Definition c_com : CreateDomainRequest :=
  {| Create_Domain := "c.com"; Create_IP := "10.0.0.3";
     Create_Port := 80; Create_Protocol := "http" |}.

(** The registry after [a.com] was inserted at time 100; now it is 200. *)
Definition storeWithA : Store :=
  {| table := {[ "a.com" := {| ip := "10.0.0.1"; port := 8080;
                               protocol := "https";
                               created_at := 100; updated_at := 100 |} ]};
     clock := 200; faults := [] |}.

(** The registry with [example.com] served by (10.1.1.1, 80, http). *)
Definition storeWithExample : Store :=
  {| table := {[ "example.com" := {| ip := "10.1.1.1"; port := 80;
                                     protocol := "http";
                                     created_at := 100; updated_at := 100 |} ]};
     clock := 200; faults := [] |}.

(** The same record as stored before the protocol column had a default:
    its scheme is empty. *)
Definition storeWithLegacy : Store :=
  {| table := {[ "example.com" := {| ip := "10.1.1.1"; port := 80;
                                     protocol := "";
                                     created_at := 100; updated_at := 100 |} ]};
     clock := 200; faults := [] |}.

(** A registry whose engine fails on the next call. *)
Definition storeBroken : Store :=
  {| table := table storeWithExample; clock := 200;
     faults := [Some "unable to open database file: /app/data/proxy.db"] |}.

(** A request with no usable body and no path variable. *)
Definition noPayload : Payload :=
  {| pathDomain := Err "missing path variable";
     asCreate := Err "EOF"; asUpdate := Err "EOF"; readAll := Ok tt;
     asArray := Err "unexpected end of JSON input";
     asBulk := Err "unexpected end of JSON input" |}.

(** GET /a%2Fb?x=1#frag for the host [example.com:8443]. *)
Definition inbound : Request :=
  {| Method := "GET";
     Url := {| Scheme := ""; Opaque := ""; URL_Host := "";
               Path := "/a/b"; RawPath := "/a%2Fb"; RawQuery := "x=1";
               Fragment := "frag"; RawFragment := "" |};
     Host := "example.com:8443"; RequestURI := "/a%2Fb?x=1#frag";
     RemoteAddr := "192.0.2.7:51234"; Authorization := "";
     Body := noPayload |}.

Definition backend : URL :=
  {| Scheme := "http"; Opaque := ""; URL_Host := "10.1.1.1:80"; Path := "";
     RawPath := ""; RawQuery := ""; Fragment := ""; RawFragment := "" |}.

(** [url.Parse] on the one locator the examples need. *)
Definition parse (rawURL : string) : result URL :=
  if String.eqb rawURL "http://10.1.1.1:80" then Ok backend
  else Err ("parse " +:+ rawURL +:+ ": invalid URL").

(** A backend that answers every request. *)
Definition backendUp (req : Request) : result Response :=
  Ok {| StatusCode := 200; ContentType := "text/html";
        Written := Stream ("served " +:+ Path (Url req)) |}.

(** A backend that refuses the connection. *)
Definition backendDown (req : Request) : result Response :=
  Err "dial tcp 10.1.1.1:80: connect: connection refused".

Definition handlers : api.Handlers := api.NewHandlers "my-secret-key".

Definition request (method host path : string) (body : Payload) : Request :=
  {| Method := method;
     Url := {| Scheme := ""; Opaque := ""; URL_Host := ""; Path := path;
               RawPath := ""; RawQuery := ""; Fragment := "";
               RawFragment := "" |};
     Host := host; RequestURI := path; RemoteAddr := "192.0.2.7:51234";
     Authorization := "Bearer my-secret-key";
     Body := body |}.

(** POST /api/config with the JSON object [req]. *)
Definition post (req : CreateDomainRequest) : Request :=
  request "POST" "api.example.com" "/api/config"
    {| pathDomain := Err "missing path variable";
       asCreate := Ok req; asUpdate := Err "EOF"; readAll := Ok tt;
       asArray := Err "json: cannot unmarshal object into Go value";
       asBulk := Ok {| Bulk_Domains := [] |} |}.

(** PUT /api/config/[domain] with the JSON object [req]. *)
Definition put (domain : string) (req : UpdateDomainRequest) : Request :=
  request "PUT" "api.example.com" ("/api/config/" +:+ domain)
    {| pathDomain := Ok domain;
       asCreate := Err "EOF"; asUpdate := Ok req; readAll := Ok tt;
       asArray := Err "json: cannot unmarshal object into Go value";
       asBulk := Ok {| Bulk_Domains := [] |} |}.

(** POST /api/config/bulk with the JSON array [batch]. *)
Definition postBulk (batch : list CreateDomainRequest) : Request :=
  request "POST" "api.example.com" "/api/config/bulk"
    {| pathDomain := Err "missing path variable";
       asCreate := Err "json: cannot unmarshal array into Go value";
       asUpdate := Err "json: cannot unmarshal array into Go value";
       readAll := Ok tt; asArray := Ok batch;
       asBulk := Err "json: cannot unmarshal array into Go value" |}.

(** The body [{ip: 10.0.0.2, port: 9090}]: no protocol. *)
Definition updateWithoutScheme : UpdateDomainRequest :=
  {| Update_IP := "10.0.0.2"; Update_Port := 9090; Update_Protocol := "" |}.


Definition no_ip : CreateDomainRequest :=
  {| Create_Domain := "d.com"; Create_IP := "";
     Create_Port := 80; Create_Protocol := "http" |}.

Definition no_port : CreateDomainRequest :=
  {| Create_Domain := "d.com"; Create_IP := "10.0.0.4";
     Create_Port := 0; Create_Protocol := "" |}.


End fixtures.

(** * Properties *)

(** ** Facts about [strings.LastIndex] for a one-byte separator *)

Section LastIndexFacts.
Import strings.
Variable c : ascii.

Abbreviation sep := (String c EmptyString).

Lemma prefix_sep_cons (b : ascii) (s : string) :
  String.prefix sep (String b s) = Ascii.eqb c b.
Proof.
  simpl. destruct (ascii_dec c b) as [->|Hne].
  - rewrite Ascii.eqb_refl. now destruct s.
  - symmetry. now apply Ascii.eqb_neq.
Qed.

Lemma lastIndexFrom_absent (s : string) (i : Z) :
  containsByte c s = false -> lastIndexFrom sep s i = -1.
Proof.
  revert i. induction s as [|b s IH]; intros i H; [reflexivity|].
  simpl in H. apply orb_false_iff in H as [Hb Hs].
  cbn [lastIndexFrom]. rewrite (IH _ Hs), prefix_sep_cons. simpl.
  rewrite Ascii.eqb_sym, Hb. reflexivity.
Qed.

Lemma lastIndexFrom_last (a b : string) (i : Z) :
  0 <= i -> containsByte c b = false ->
  lastIndexFrom sep (a +:+ String c b) i = i + Z.of_nat (String.length a).
Proof.
  revert i. induction a as [|x a IH]; intros i Hi Hb.
  - change (EmptyString +:+ String c b) with (String c b).
    cbn [lastIndexFrom]. rewrite (lastIndexFrom_absent _ _ Hb), prefix_sep_cons.
    simpl. rewrite Ascii.eqb_refl. lia.
  - change (String x a +:+ String c b) with (String x (a +:+ String c b)).
    cbn [lastIndexFrom]. rewrite (IH (i + 1)) by (lia || assumption).
    destruct (Z.eqb_spec (i + 1 + Z.of_nat (String.length a)) (-1)) as [E|_].
    + lia.
    + cbn [String.length]. lia.
Qed.

Lemma split_at_last (s : string) :
  containsByte c s = true ->
  exists a b, s = a +:+ String c b /\ containsByte c b = false.
Proof.
  induction s as [|x s IH]; intros H; [discriminate|].
  simpl in H. destruct (containsByte c s) eqn:Hs.
  - destruct (IH eq_refl) as (a & b & -> & Hb).
    exists (String x a), b. split; [reflexivity|assumption].
  - rewrite orb_false_r in H. apply Ascii.eqb_eq in H as ->.
    exists EmptyString, s. split; [reflexivity|assumption].
Qed.

End LastIndexFacts.

Lemma sliceTo_app (a rest : string) :
  strings.sliceTo (a +:+ rest) (Z.of_nat (String.length a)) = a.
Proof.
  unfold strings.sliceTo. rewrite Nat2Z.id.
  induction a as [|x a IH]; simpl.
  - now destruct rest.
  - now rewrite IH.
Qed.

(** The port-stripping lines, shared by the dispatcher and the domain
    middleware, in terms of the host alone. *)
Lemma strip_without_colon (host : string) :
  strings.containsByte ":" host = false ->
  strings.LastIndex host ":" = -1.
Proof. intros H. now apply lastIndexFrom_absent. Qed.

Lemma strip_at_last_colon (d p : string) :
  strings.containsByte ":" p = false ->
  strings.LastIndex (d +:+ ":" +:+ p) ":" = Z.of_nat (String.length d).
Proof.
  intros H. unfold strings.LastIndex.
  change (":" +:+ p) with (String ":" p).
  rewrite lastIndexFrom_last by (lia || assumption). lia.
Qed.

Lemma domainName_without_colon (host : string) :
  strings.containsByte ":" host = false -> proxy.domainName host = host.
Proof.
  intros H. unfold proxy.domainName. now rewrite strip_without_colon.
Qed.

Lemma domainName_at_last_colon (d p : string) :
  strings.containsByte ":" p = false ->
  proxy.domainName (d +:+ ":" +:+ p) = d.
Proof.
  intros H. unfold proxy.domainName. rewrite strip_at_last_colon by assumption.
  destruct (Z.eqb_spec (Z.of_nat (String.length d)) (-1)) as [E|_]; [lia|].
  apply sliceTo_app.
Qed.

(** ** Inversion of the monad *)

Section MonadFacts.
Import sql.
Context {A B : Type}.

Lemma bind_Ok (m : M A) (k : A -> M B) st b st' :
  bind m k st = (Ok b, st') ->
  exists a st1, m st = (Ok a, st1) /\ k a st1 = (Ok b, st').
Proof.
  unfold bind. destruct (m st) as [[a|e] st1]; intros H; [eauto|discriminate].
Qed.

Lemma bind_Err (m : M A) (k : A -> M B) st e st' :
  bind m k st = (Err e, st') ->
  m st = (Err e, st') \/ exists a st1, m st = (Ok a, st1) /\ k a st1 = (Err e, st').
Proof.
  unfold bind. destruct (m st) as [[a|e0] st1]; intros H; [eauto|].
  left. congruence.
Qed.

Lemma wrap_Ok (pfx : string) (m : M A) st a st' :
  wrap pfx m st = (Ok a, st') -> m st = (Ok a, st').
Proof.
  unfold wrap. destruct (m st) as [[a0|e] st1]; intros H; congruence.
Qed.

Lemma wrap_Err (pfx : string) (m : M A) st e st' :
  wrap pfx m st = (Err e, st') ->
  exists e0, m st = (Err e0, st') /\ e = pfx +:+ e0.
Proof.
  unfold wrap. destruct (m st) as [[a0|e0] st1]; intros H; [discriminate|].
  exists e0. split; congruence.
Qed.

End MonadFacts.

(** ** The storage engine *)

Section EngineFacts.
Import models sql props.

Lemma sameData_refl st : sameData st st.
Proof. now split. Qed.

Lemma sameData_trans st1 st2 st3 :
  sameData st1 st2 -> sameData st2 st3 -> sameData st1 st3.
Proof. unfold sameData. intros [? ?] [? ?]. split; congruence. Qed.

Lemma driver_sameData st r st' : driver st = (r, st') -> sameData st st'.
Proof.
  unfold driver. destruct (faults st) as [|[e|] fs]; intros H;
    injection H as <- <-; now split.
Qed.

Lemma driver_quiet st : faults st = [] -> driver st = (Ok tt, st).
Proof. unfold driver. now intros ->. Qed.

Lemma QueryRow_Ok domain st row st' :
  QueryRow domain st = (Ok row, st') ->
  row = table st !! domain /\ sameData st st'.
Proof.
  intros H. apply bind_Ok in H as (u & st1 & Hd & Hk).
  apply driver_sameData in Hd as [Ht Hc]. injection Hk as <- <-.
  rewrite Ht. now split.
Qed.

Lemma QueryRow_sameData domain st r st' :
  QueryRow domain st = (r, st') -> sameData st st'.
Proof.
  destruct r as [row|e]; intros H.
  - now apply QueryRow_Ok in H.
  - apply bind_Err in H as [Hd|(u & st1 & _ & Hk)]; [|discriminate].
    now apply driver_sameData in Hd.
Qed.

Lemma TxExecInsert_Ok tx domain ip port protocol st tx' st' :
  TxExecInsert tx domain ip port protocol st = (Ok tx', st') ->
  sameData st st' /\ pending tx !! domain = None /\
  pending tx' =
    <[domain := {| sql.ip := ip; sql.port := port; sql.protocol := protocol;
                   created_at := clock st; updated_at := clock st |}]>
      (pending tx).
Proof.
  intros H. apply bind_Ok in H as (u & st1 & Hd & Hk).
  apply driver_sameData in Hd as [Ht Hc].
  unfold insert_row in Hk. destruct (pending tx !! domain); [discriminate|].
  injection Hk as <- <-. rewrite Hc. repeat split; assumption.
Qed.

Lemma TxExecInsert_sameData tx domain ip port protocol st r st' :
  TxExecInsert tx domain ip port protocol st = (r, st') -> sameData st st'.
Proof.
  destruct r as [tx'|e]; intros H.
  - now apply TxExecInsert_Ok in H.
  - apply bind_Err in H as [Hd|(u & st1 & Hd & Hk)].
    + now apply driver_sameData in Hd.
    + apply driver_sameData in Hd. unfold insert_row in Hk.
      destruct (pending tx !! domain); [|discriminate].
      injection Hk as _ <-. assumption.
Qed.

End EngineFacts.

(** ** The registry *)

Section RegistryFacts.
Import models sql database props.

Lemma GetDomain_Ok domain st d st' :
  GetDomain domain st = (Ok d, st') ->
  d = toDomain domain <$> table st !! domain /\ sameData st st'.
Proof.
  intros H. apply bind_Ok in H as (row & st1 & Hq & Hk).
  apply wrap_Ok, QueryRow_Ok in Hq as [-> Hs].
  destruct (table st !! domain); injection Hk as <- <-; now split.
Qed.

Lemma GetDomain_sameData domain st r st' :
  GetDomain domain st = (r, st') -> sameData st st'.
Proof.
  destruct r as [d|e]; intros H.
  - now apply GetDomain_Ok in H.
  - apply bind_Err in H as [Hq|(row & st1 & _ & Hk)].
    + apply wrap_Err in Hq as (e0 & Hq & _).
      now apply QueryRow_sameData in Hq.
    + destruct row; discriminate.
Qed.

Lemma GetDomain_quiet domain st :
  faults st = [] ->
  GetDomain domain st = (Ok (toDomain domain <$> table st !! domain), st).
Proof.
  intros Hf. unfold GetDomain, QueryRow, bind, wrap.
  rewrite (driver_quiet _ Hf). now destruct (table st !! domain).
Qed.

(** *** The insertion loop of the batch *)

Lemma bulkInsertLoop_Ok batch : forall tx names st tx' names' st',
  bulkInsertLoop tx batch names st = (Ok (tx', names'), st') ->
  sameData st st' /\ names' = (names ++ keys batch)%list /\
  NoDup (keys batch) /\
  (forall req, req ∈ batch -> pending tx !! Create_Domain req = None) /\
  persisted (clock st) batch (pending tx') /\
  (forall k, k ∉ keys batch -> pending tx' !! k = pending tx !! k).
Proof.
  induction batch as [|req rest IH]; intros tx names st tx' names' st' H.
  - injection H as <- <- <-. rewrite app_nil_r.
    repeat split; try constructor; intros ? Hin; inversion Hin.
  - cbn [bulkInsertLoop] in H. apply bind_Ok in H as (tx1 & st1 & Hx & Hl).
    apply wrap_Ok, TxExecInsert_Ok in Hx as ([Ht Hc] & Hnone & Hp).
    apply IH in Hl as ([Ht' Hc'] & -> & Hnd & Hfree & Hper & Hoth).
    assert (Hfresh : Create_Domain req ∉ keys rest).
    { intros Hin. apply list_elem_of_fmap in Hin as (r' & Hk & Hr').
      specialize (Hfree r' Hr'). rewrite <- Hk, Hp, lookup_insert_eq in Hfree.
      discriminate. }
    split; [split; congruence|]. split; [now rewrite <- app_assoc|].
    split; [cbn; apply NoDup_cons; now split|].
    split; [|split].
    + intros r Hr. apply elem_of_cons in Hr as [->|Hr]; [assumption|].
      specialize (Hfree r Hr). rewrite Hp in Hfree.
      destruct (decide (Create_Domain req = Create_Domain r)) as [E|N].
      * rewrite E, lookup_insert_eq in Hfree. discriminate.
      * now rewrite lookup_insert_ne in Hfree.
    + intros r Hr. apply elem_of_cons in Hr as [->|Hr].
      * rewrite (Hoth _ Hfresh), Hp, lookup_insert_eq. reflexivity.
      * rewrite <- Hc. now apply Hper.
    + intros k Hk. cbn in Hk. apply not_elem_of_cons in Hk as [Hk1 Hk2].
      rewrite (Hoth _ Hk2), Hp. now rewrite lookup_insert_ne.
Qed.

Lemma bulkInsertLoop_sameData batch : forall tx names st r st',
  bulkInsertLoop tx batch names st = (r, st') -> sameData st st'.
Proof.
  induction batch as [|req rest IH]; intros tx names st r st' H.
  - injection H as _ <-. apply sameData_refl.
  - cbn [bulkInsertLoop] in H. unfold bind, wrap in H.
    destruct (TxExecInsert _ _ _ _ _ st) as [[tx1|e] st1] eqn:Hx;
      apply TxExecInsert_sameData in Hx.
    + apply IH in H. eapply sameData_trans; eassumption.
    + injection H as _ <-. assumption.
Qed.

Lemma bulkInsertLoop_quiet batch : forall tx names st,
  faults st = [] -> NoDup (keys batch) ->
  (forall req, req ∈ batch -> pending tx !! Create_Domain req = None) ->
  exists tx', bulkInsertLoop tx batch names st = (Ok (tx', (names ++ keys batch)%list), st).
Proof.
  induction batch as [|req rest IH]; intros tx names st Hf Hnd Hfree.
  - exists tx. cbn. now rewrite app_nil_r.
  - cbn in Hnd. apply NoDup_cons in Hnd as [Hfresh Hnd].
    cbn [bulkInsertLoop]. unfold bind at 1, wrap, TxExecInsert, bind.
    rewrite (driver_quiet _ Hf). unfold insert_row.
    rewrite (Hfree req) by apply list_elem_of_here.
    match goal with
    | |- context [bulkInsertLoop ?t rest ?n st] =>
        destruct (IH t n st Hf Hnd) as [tx' Htx']
    end.
    + intros r Hr. cbn. rewrite lookup_insert_ne.
      * apply Hfree. now apply list_elem_of_further.
      * intros E. apply Hfresh. rewrite E. apply list_elem_of_fmap. eauto.
    + exists tx'. rewrite Htx'. cbn. now rewrite <- app_assoc.
Qed.

Lemma bulkFetchLoop_sameData names : forall created st r st',
  bulkFetchLoop names created st = (r, st') -> sameData st st'.
Proof.
  induction names as [|n rest IH]; intros created st r st' H.
  - injection H as _ <-. apply sameData_refl.
  - cbn [bulkFetchLoop] in H. unfold bind, wrap in H.
    destruct (GetDomain n st) as [[d|e] st1] eqn:Hg;
      apply GetDomain_sameData in Hg.
    + destruct d; apply IH in H; eapply sameData_trans; eassumption.
    + injection H as _ <-. assumption.
Qed.

Lemma bulkFetchLoop_quiet names : forall created st,
  faults st = [] ->
  exists out, bulkFetchLoop names created st = (Ok out, st).
Proof.
  induction names as [|n rest IH]; intros created st Hf.
  - eexists. reflexivity.
  - cbn [bulkFetchLoop]. unfold bind, wrap. rewrite (GetDomain_quiet _ _ Hf).
    destruct (table st !! n); cbn; now apply IH.
Qed.

End RegistryFacts.

Section TransactionFacts.
Import models sql database props.

Lemma Begin_Ok st tx st' :
  Begin st = (Ok tx, st') -> pending tx = table st /\ sameData st st'.
Proof.
  intros H. apply bind_Ok in H as (u & st1 & Hd & Hk).
  apply driver_sameData in Hd as [Ht Hc]. injection Hk as <- <-.
  cbn. now repeat split.
Qed.

Lemma Begin_Err st e st' : Begin st = (Err e, st') -> sameData st st'.
Proof.
  intros H. apply bind_Err in H as [Hd|(u & st1 & _ & Hk)]; [|discriminate].
  now apply driver_sameData in Hd.
Qed.

Lemma Commit_Ok tx st u st' :
  Commit tx st = (Ok u, st') -> table st' = pending tx /\ clock st' = clock st.
Proof.
  intros H. apply bind_Ok in H as (u0 & st1 & Hd & Hk).
  apply driver_sameData in Hd as [Ht Hc]. injection Hk as _ <-.
  cbn. now split.
Qed.

Lemma Commit_Err tx st e st' : Commit tx st = (Err e, st') -> sameData st st'.
Proof.
  intros H. apply bind_Err in H as [Hd|(u & st1 & _ & Hk)]; [|discriminate].
  now apply driver_sameData in Hd.
Qed.

(** The two ways a call of [BulkCreateDomains] can end: an error with
    the table as it was, or the whole batch committed. *)
Lemma BulkCreateDomains_cases batch st r st' :
  BulkCreateDomains batch st = (r, st') ->
  (table st' = table st /\ (batch = [] \/ exists e, r = Err e))
  \/ (NoDup (keys batch)
      /\ (forall req, req ∈ batch -> table st !! Create_Domain req = None)
      /\ persisted (clock st) batch (table st')
      /\ (forall k, k ∉ keys batch -> table st' !! k = table st !! k)).
Proof.
  destruct batch as [|req0 rest].
  { intros H. injection H as _ <-. left. split; [reflexivity|now left]. }
  set (batch := req0 :: rest). intros H.
  change (BulkCreateDomains batch st) with
    ((tx <- wrap "failed to begin transaction: " Begin ;;
      _ <- wrap "failed to prepare statement: " (Prepare tx) ;;
      inserted <- bulkInsertLoop tx batch [] ;;
      _ <- wrap "failed to commit transaction: " (Commit (fst inserted)) ;;
      bulkFetchLoop (snd inserted) []) st) in H.
  unfold bind at 1 in H.
  destruct (wrap _ Begin st) as [[tx|e] st1] eqn:HB.
  2:{ injection H as <- <-. apply wrap_Err in HB as (e0 & HB & _).
      apply Begin_Err in HB as [Ht _]. left. split; [assumption|eauto]. }
  apply wrap_Ok, Begin_Ok in HB as (Hp & Ht1 & Hc1).
  unfold bind at 1 in H.
  destruct (wrap _ (Prepare tx) st1) as [[u|e] st2] eqn:HP.
  2:{ injection H as <- <-. apply wrap_Err in HP as (e0 & HP & _).
      apply driver_sameData in HP as [Ht2 _]. left.
      split; [congruence|eauto]. }
  apply wrap_Ok, driver_sameData in HP as [Ht2 Hc2].
  unfold bind at 1 in H.
  destruct (bulkInsertLoop tx batch [] st2) as [[[tx' names]|e] st3] eqn:HL.
  2:{ injection H as <- <-. apply bulkInsertLoop_sameData in HL as [Ht3 _].
      left. split; [congruence|eauto]. }
  apply bulkInsertLoop_Ok in HL as ([Ht3 Hc3] & _ & Hnd & Hfree & Hper & Hoth).
  unfold bind at 1 in H. cbn [fst snd] in H.
  destruct (wrap _ (Commit tx') st3) as [[u'|e] st4] eqn:HC.
  2:{ injection H as <- <-. apply wrap_Err in HC as (e0 & HC & _).
      apply Commit_Err in HC as [Ht4 _]. left.
      split; [congruence|eauto]. }
  apply wrap_Ok, Commit_Ok in HC as [Ht4 Hc4].
  apply bulkFetchLoop_sameData in H as [Ht5 _].
  right. rewrite Ht5, Ht4. split; [assumption|]. split; [|split].
  - intros r0 Hr0. rewrite <- Hp. now apply Hfree.
  - replace (clock st) with (clock st2) by congruence. assumption.
  - intros k Hk. rewrite (Hoth k Hk). congruence.
Qed.

Lemma BulkCreateDomains_quiet batch st :
  faults st = [] -> NoDup (keys batch) ->
  (forall req, req ∈ batch -> table st !! Create_Domain req = None) ->
  exists created st',
    BulkCreateDomains batch st = (Ok created, st') /\ faults st' = [].
Proof.
  intros Hf Hnd Hfree. destruct batch as [|req0 rest].
  { exists [], st. now split. }
  set (batch := req0 :: rest) in *.
  change (BulkCreateDomains batch st) with
    ((tx <- wrap "failed to begin transaction: " Begin ;;
      _ <- wrap "failed to prepare statement: " (Prepare tx) ;;
      inserted <- bulkInsertLoop tx batch [] ;;
      _ <- wrap "failed to commit transaction: " (Commit (fst inserted)) ;;
      bulkFetchLoop (snd inserted) []) st).
  unfold bind at 1, wrap at 1, Begin, bind at 1.
  rewrite (driver_quiet _ Hf). cbn iota beta.
  unfold bind at 1, wrap at 1, Prepare. rewrite (driver_quiet _ Hf).
  cbn iota beta.
  destruct (bulkInsertLoop_quiet batch {| pending := table st |} [] st Hf Hnd Hfree)
    as [tx' Hl].
  unfold bind at 1. rewrite Hl. cbn [fst snd].
  unfold bind at 1, wrap at 1, Commit, bind at 1.
  rewrite (driver_quiet _ Hf). cbn iota beta.
  destruct (bulkFetchLoop_quiet (keys batch) [] (set_table (pending tx') st) Hf)
    as [out Hout].
  exists out, (set_table (pending tx') st). split; [|assumption].
  exact Hout.
Qed.

End TransactionFacts.

(** ** The claims about the registry *)

Section RegistryClaims.
Import models sql database props.

(** C5. An insert of a domain that is already stored fails and leaves
    the whole table, hence the stored record with all its fields, as it
    was; when the engine itself works, the error is the driver's
    duplicate-key error. *)
Theorem C5_insert_existing_fails (req : CreateDomainRequest) (st : Store)
    (row : Row) :
  table st !! Create_Domain req = Some row ->
  (exists e, fst (CreateDomain req st) = Err e)
  /\ table (snd (CreateDomain req st)) = table st
  /\ table (snd (CreateDomain req st)) !! Create_Domain req = Some row
  /\ (forall st1, driver st = (Ok tt, st1) ->
      CreateDomain req st
      = (Err ("failed to create domain: " +:+ ErrUnique), st1)).
Proof.
  intros Hrow.
  assert (Hcases :
    (exists e st1, CreateDomain req st = (Err e, st1) /\ table st1 = table st)
    /\ (forall st1, driver st = (Ok tt, st1) ->
        CreateDomain req st
        = (Err ("failed to create domain: " +:+ ErrUnique), st1))).
  { unfold CreateDomain, bind, wrap, ExecInsert, bind.
    destruct (driver st) as [[[]|e] st1] eqn:Hd;
      pose proof (driver_sameData _ _ _ Hd) as [Ht _].
    - unfold insert_row. rewrite Ht, Hrow. split; [eauto|].
      intros st2 E. now injection E as <-.
    - split; [eauto|]. intros st2 E. discriminate. }
  destruct Hcases as [(e & st1 & Hrun & Ht) Hquiet].
  rewrite Hrun. cbn [fst snd]. rewrite Ht.
  split; [eauto|]. split; [reflexivity|]. split; [assumption|].
  intros st2 Hd. rewrite <- Hrun. now apply Hquiet.
Qed.

Lemma C5_insert_existing_fails_witness :
  CreateDomain fixtures.a_com fixtures.storeWithA
  = (Err ("failed to create domain: " +:+ ErrUnique), fixtures.storeWithA).
Proof.
  apply (C5_insert_existing_fails fixtures.a_com fixtures.storeWithA
           {| ip := "10.0.0.1"; port := 8080; protocol := "https";
              created_at := 100; updated_at := 100 |}).
  - vm_compute. reflexivity.
  - reflexivity.
Defined.

(** C3. A batch with a duplicate (of a stored domain or within the
    batch) is reported as an error and leaves the table as it was; in
    every case the table after the call is either the table before it
    or contains every record of the batch; and a batch without
    duplicates, on an engine that does not fail, is persisted whole,
    the other domains being untouched. *)
Theorem C3_bulk_insert_all_or_nothing (batch : list CreateDomainRequest)
    (st : Store) :
  (hasDuplicate batch (table st) ->
     (exists e, fst (BulkCreateDomains batch st) = Err e)
     /\ table (snd (BulkCreateDomains batch st)) = table st)
  /\ (table (snd (BulkCreateDomains batch st)) = table st
      \/ persisted (clock st) batch (table (snd (BulkCreateDomains batch st))))
  /\ (faults st = [] -> ~ hasDuplicate batch (table st) ->
      (exists created, fst (BulkCreateDomains batch st) = Ok created)
      /\ persisted (clock st) batch (table (snd (BulkCreateDomains batch st)))
      /\ (forall k, k ∉ keys batch ->
          table (snd (BulkCreateDomains batch st)) !! k = table st !! k)).
Proof.
  destruct (BulkCreateDomains batch st) as [r st'] eqn:Hrun. cbn [fst snd].
  pose proof (BulkCreateDomains_cases _ _ _ _ Hrun) as Hcases.
  split; [|split].
  - intros Hdup.
    destruct Hcases as [[Ht [->|(e & ->)]]|(Hnd & Hfree & _)].
    + exfalso. destruct Hdup as [(req & Hin & _)|Hn].
      * now apply elem_of_nil in Hin.
      * apply Hn. constructor.
    + split; [eauto|assumption].
    + exfalso. destruct Hdup as [(req & Hin & Hs)|Hn]; [|now apply Hn].
      rewrite (Hfree _ Hin) in Hs. now destruct Hs.
  - destruct Hcases as [[Ht _]|(_ & _ & Hper & _)]; [now left|now right].
  - intros Hf Hno.
    assert (Hnd : NoDup (keys batch)).
    { destruct (decide (NoDup (keys batch))) as [H|H]; [assumption|].
      exfalso. apply Hno. now right. }
    assert (Hfree : forall req, req ∈ batch ->
                      table st !! Create_Domain req = None).
    { intros req Hin. destruct (table st !! Create_Domain req) eqn:E;
        [|reflexivity].
      exfalso. apply Hno. left. exists req. rewrite E. eauto. }
    destruct (BulkCreateDomains_quiet batch st Hf Hnd Hfree)
      as (created & st1 & Hok & _).
    rewrite Hrun in Hok. injection Hok as -> ->.
    split; [eauto|].
    destruct Hcases as [[Ht [->|(e & He)]]|(_ & _ & Hper & Hoth)].
    + split; [|now intros; rewrite Ht]. intros req Hin.
      now apply elem_of_nil in Hin.
    + discriminate.
    + now split.
Qed.

Lemma C3_bulk_insert_all_or_nothing_witness :
  ((exists e,
      fst (BulkCreateDomains [fixtures.b_com; fixtures.a_com; fixtures.c_com]
             fixtures.storeWithA) = Err e)
   /\ table (snd (BulkCreateDomains
                    [fixtures.b_com; fixtures.a_com; fixtures.c_com]
                    fixtures.storeWithA))
      = table fixtures.storeWithA)
  /\ ((exists created,
         fst (BulkCreateDomains [fixtures.b_com; fixtures.c_com]
                fixtures.storeWithA) = Ok created)
      /\ persisted 200 [fixtures.b_com; fixtures.c_com]
           (table (snd (BulkCreateDomains [fixtures.b_com; fixtures.c_com]
                          fixtures.storeWithA)))
      /\ (forall k, k ∉ keys [fixtures.b_com; fixtures.c_com] ->
          table (snd (BulkCreateDomains [fixtures.b_com; fixtures.c_com]
                        fixtures.storeWithA)) !! k
          = table fixtures.storeWithA !! k)).
Proof.
  split.
  - apply (proj1 (C3_bulk_insert_all_or_nothing
                    [fixtures.b_com; fixtures.a_com; fixtures.c_com]
                    fixtures.storeWithA)).
    left. exists fixtures.a_com. split.
    + apply list_elem_of_further, list_elem_of_here.
    + vm_compute. eauto.
  - apply (proj2 (proj2 (C3_bulk_insert_all_or_nothing
                           [fixtures.b_com; fixtures.c_com]
                           fixtures.storeWithA))).
    + reflexivity.
    + intros [(req & Hin & Hs)|Hn].
      * apply elem_of_cons in Hin as [->|Hin];
          [vm_compute in Hs; destruct Hs; discriminate|].
        apply list_elem_of_singleton in Hin as ->.
        vm_compute in Hs. destruct Hs; discriminate.
      * apply Hn. apply (bool_decide_unpack _). vm_compute. reflexivity.
Defined.

End RegistryClaims.

(** ** Single inserts and updates *)

Section MutationFacts.
Import models sql database props.

Lemma ExecInsert_table domain ip port protocol st r st' :
  ExecInsert domain ip port protocol st = (r, st') ->
  clock st' = clock st
  /\ ((table st' = table st /\ exists e, r = Err e)
      \/ (table st !! domain = None /\ r = Ok tt
          /\ table st'
             = <[domain := {| sql.ip := ip; sql.port := port;
                              sql.protocol := protocol;
                              created_at := clock st;
                              updated_at := clock st |}]> (table st))).
Proof.
  unfold ExecInsert, bind.
  destruct (driver st) as [[[]|e] st1] eqn:Hd;
    apply driver_sameData in Hd as [Ht Hc]; intros H.
  - unfold insert_row in H. rewrite Ht, Hc in H.
    destruct (table st !! domain); injection H as <- <-; cbn.
    + split; [assumption|]. left. split; [assumption|eauto].
    + split; [assumption|]. right. now repeat split.
  - injection H as <- <-. split; [assumption|]. left. split; [assumption|eauto].
Qed.

Lemma CreateDomain_table req st r st' :
  CreateDomain req st = (r, st') ->
  (table st' = table st /\ exists e, r = Err e)
  \/ (table st !! Create_Domain req = None
      /\ table st' = <[Create_Domain req := storedRow (clock st) req]> (table st)).
Proof.
  unfold CreateDomain, bind, wrap.
  destruct (ExecInsert _ _ _ _ st) as [[[]|e] st1] eqn:Hx;
    apply ExecInsert_table in Hx as [Hc [[Ht (e0 & He)]|(Hnone & Hr & Ht)]];
    intros H.
  - discriminate He.
  - apply GetDomain_sameData in H as [Ht' _]. right.
    split; [assumption|]. now rewrite Ht', Ht.
  - injection H as <- <-. left. split; [assumption|eauto].
  - discriminate Hr.
Qed.

Lemma ExecUpdate_table ip port protocol domain st r st' :
  ExecUpdate ip port protocol domain st = (r, st') ->
  clock st' = clock st
  /\ ((table st' = table st /\ r <> Ok 1)
      \/ (exists old, table st !! domain = Some old /\ r = Ok 1
          /\ table st'
             = <[domain := {| sql.ip := ip; sql.port := port;
                              sql.protocol := protocol;
                              created_at := created_at old;
                              updated_at := clock st |}]> (table st))).
Proof.
  unfold ExecUpdate, bind.
  destruct (driver st) as [[[]|e] st1] eqn:Hd;
    apply driver_sameData in Hd as [Ht Hc]; intros H.
  - unfold update_row in H. rewrite Ht, Hc in H.
    destruct (table st !! domain) as [old|]; injection H as <- <-; cbn.
    + split; [assumption|]. right. exists old. now repeat split.
    + split; [assumption|]. left. split; [reflexivity|discriminate].
  - injection H as <- <-. split; [assumption|]. left.
    split; [assumption|discriminate].
Qed.

Lemma UpdateDomain_table domain req st r st' :
  UpdateDomain domain req st = (r, st') ->
  table st' = table st
  \/ (exists old, table st !! domain = Some old
      /\ table st'
         = <[domain := updatedRow (clock st) req
                         (if String.eqb (Update_Protocol req) ""
                          then protocol old else Update_Protocol req) old]>
             (table st)).
Proof.
  assert (Hupd : forall p st1 r1 st2,
    (rowsAffected <- wrap "failed to update domain: "
                       (ExecUpdate (Update_IP req) (Update_Port req) p domain) ;;
     if Z.eqb rowsAffected 0 then ret None else GetDomain domain) st1
    = (r1, st2) ->
    table st2 = table st1
    \/ (exists old, table st1 !! domain = Some old
        /\ table st2 = <[domain := updatedRow (clock st1) req p old]> (table st1))).
  { intros p st1 r1 st2. unfold bind, wrap.
    destruct (ExecUpdate _ _ _ _ st1) as [[n|e] st3] eqn:Hx;
      apply ExecUpdate_table in Hx as [Hc [[Ht Hn]|(old & Hold & Hr & Ht)]];
      intros H.
    - left. destruct (Z.eqb n 0).
      + injection H as _ <-. assumption.
      + apply GetDomain_sameData in H as [Ht' _]. congruence.
    - injection Hr as ->. cbn in H.
      apply GetDomain_sameData in H as [Ht' _]. right. exists old.
      split; [assumption|]. now rewrite Ht', Ht.
    - injection H as _ <-. now left.
    - discriminate Hr. }
  unfold UpdateDomain. destruct (String.eqb (Update_Protocol req) "") eqn:Hp.
  - unfold bind at 1, wrap at 1.
    destruct (GetDomain domain st) as [[existing|e] st1] eqn:Hg.
    + apply GetDomain_Ok in Hg as [-> [Ht Hc]].
      destruct (table st !! domain) as [old|] eqn:Hold; cbn [fmap option_fmap option_map].
      * intros H. apply Hupd in H as [H|(old' & Hold' & H)].
        -- left. congruence.
        -- right. exists old. split; [reflexivity|].
           rewrite Ht, Hold in Hold'. injection Hold' as <-.
           rewrite H, Ht, Hc. reflexivity.
      * intros H. injection H as _ <-. now left.
    + apply GetDomain_sameData in Hg as [Ht _]. intros H.
      injection H as _ <-. now left.
  - intros H. apply Hupd in H as [H|(old & Hold & H)]; [now left|].
    right. exists old. now split.
Qed.



End MutationFacts.

(** ** The claims about schemes *)

Section SchemeClaims.
Import models sql http props.

(** [DB.UpdateDomain] on its own keeps the stored scheme when the
    request carries none. *)
Lemma database_UpdateDomain_keeps_scheme domain req st old :
  table st !! domain = Some old ->
  Update_Protocol req = "" ->
  protocol <$> table (snd (database.UpdateDomain domain req st)) !! domain
  = Some (protocol old).
Proof.
  intros Hold Hp.
  destruct (database.UpdateDomain domain req st) as [r st'] eqn:Hrun.
  apply UpdateDomain_table in Hrun as [Ht|(old' & Hold' & Ht)]; cbn [snd].
  - now rewrite Ht, Hold.
  - rewrite Ht, lookup_insert_eq, Hp. cbn. congruence.
Qed.

(** The update handler never hands an empty scheme to the registry: an
    update without a scheme stores ["http"]. *)
Lemma api_UpdateDomain_resets_scheme h r st domain req old :
  pathDomain (Body r) = Ok domain -> asUpdate (Body r) = Ok req ->
  Update_IP req <> "" -> Update_Port req <> 0 -> Update_Protocol req = "" ->
  table st !! domain = Some old -> faults st = [] ->
  protocol <$> table (snd (api.UpdateDomain h r st)) !! domain = Some "http".
Proof.
  intros Hd Hr Hip Hport Hp Hold Hf. unfold api.UpdateDomain.
  rewrite Hd, Hr, Hp.
  apply String.eqb_neq in Hip. apply Z.eqb_neq in Hport.
  rewrite Hip, Hport. cbn [orb String.eqb].
  unfold database.UpdateDomain. cbn [Update_Protocol String.eqb Ascii.eqb Bool.eqb].
  unfold bind, wrap, ExecUpdate, bind. rewrite (driver_quiet _ Hf).
  unfold update_row. rewrite Hold. cbn [Z.eqb].
  rewrite GetDomain_quiet by assumption. cbn [table set_table].
  rewrite lookup_insert_eq. cbn. now rewrite lookup_insert_eq.
Qed.

(** C2. Through the management API the scheme is not kept: the record
    [a.com] stored with ["https"] is updated by a request without a
    scheme, and its stored scheme becomes ["http"], whereas the call of
    [DB.UpdateDomain] with the same arguments keeps ["https"]. *)
Theorem C2_update_without_scheme_resets_it :
  table (snd (api.CreateDomain fixtures.handlers
                (fixtures.post fixtures.a_com) fixtures.emptyStore))
  = table fixtures.storeWithA
  /\ protocol <$> table (snd (api.UpdateDomain fixtures.handlers
                                (fixtures.put "a.com" fixtures.updateWithoutScheme)
                                fixtures.storeWithA)) !! "a.com"
     = Some "http"
  /\ protocol <$> table (snd (database.UpdateDomain "a.com"
                                fixtures.updateWithoutScheme
                                fixtures.storeWithA)) !! "a.com"
     = Some "https".
Proof. repeat split; vm_compute; reflexivity. Qed.





End SchemeClaims.

(** ** The claims about validation *)

Section ValidationClaims.
Import models sql http props.

Lemma missingFields_spec req :
  api.missingFields req = true <-> fieldMissing req.
Proof.
  unfold api.missingFields, fieldMissing.
  rewrite !orb_true_iff, !String.eqb_eq, Z.eqb_eq. tauto.
Qed.

Lemma normalized_eq req :
  (if String.eqb (Create_Protocol req) "" then api.withProtocol req "http"
   else req) = normalized req.
Proof.
  destruct req as [d i p pr]. unfold normalized, api.withProtocol. cbn.
  now destruct (String.eqb pr "").
Qed.








End ValidationClaims.

(** ** The claims about the dispatcher *)

Section DispatcherClaims.
Import models sql http props.

Variable url_Parse : string -> result URL.
Variable RoundTrip : Request -> result Response.

(** What the dispatcher answers once the lookup found [d]. *)
Lemma ServeHTTP_hit r st d st' :
  Host r <> "" ->
  database.GetDomain (proxy.domainName (Host r)) st = (Ok (Some d), st') ->
  proxy.ServeHTTP url_Parse RoundTrip r st
  = (match url_Parse (proxy.targetURL (proxy.defaultProtocol d)) with
     | Err _ => Error "Invalid target configuration" StatusInternalServerError
     | Ok target =>
         proxy.ReverseProxy_ServeHTTP RoundTrip (proxy.Director target r)
           proxy.ErrorHandler r
     end, st').
Proof.
  intros Hhost Hget. unfold proxy.ServeHTTP.
  apply String.eqb_neq in Hhost. rewrite Hhost, Hget.
  now destruct (url_Parse _).
Qed.

(** A failing lookup and an unusable target are answered with fixed
    texts, whatever the underlying error says. *)
Lemma ServeHTTP_storage_error_hidden r st e st' :
  Host r <> "" ->
  database.GetDomain (proxy.domainName (Host r)) st = (Err e, st') ->
  proxy.ServeHTTP url_Parse RoundTrip r st
  = (Error "Internal server error" StatusInternalServerError, st').
Proof.
  intros Hhost Hget. unfold proxy.ServeHTTP.
  apply String.eqb_neq in Hhost. now rewrite Hhost, Hget.
Qed.

Lemma ServeHTTP_target_error_hidden r st d st' e :
  Host r <> "" ->
  database.GetDomain (proxy.domainName (Host r)) st = (Ok (Some d), st') ->
  url_Parse (proxy.targetURL (proxy.defaultProtocol d)) = Err e ->
  proxy.ServeHTTP url_Parse RoundTrip r st
  = (Error "Invalid target configuration" StatusInternalServerError, st').
Proof.
  intros Hhost Hget Hparse. rewrite (ServeHTTP_hit _ _ _ _ Hhost Hget).
  now rewrite Hparse.
Qed.

(** The error met while contacting the backend is sent to the client. *)
Lemma ServeHTTP_backend_error_exposed r st d st' target err :
  Host r <> "" ->
  database.GetDomain (proxy.domainName (Host r)) st = (Ok (Some d), st') ->
  url_Parse (proxy.targetURL (proxy.defaultProtocol d)) = Ok target ->
  RoundTrip (rewritten target r) = Err err ->
  fst (proxy.ServeHTTP url_Parse RoundTrip r st)
  = Error ("Proxy error: " +:+ err) StatusBadGateway
  /\ exposes (fst (proxy.ServeHTTP url_Parse RoundTrip r st)) err.
Proof.
  intros Hhost Hget Hparse Hrt. rewrite (ServeHTTP_hit _ _ _ _ Hhost Hget).
  rewrite Hparse. cbn [fst]. unfold proxy.ReverseProxy_ServeHTTP.
  change (proxy.Director target r r) with (rewritten target r).
  rewrite Hrt. split; [reflexivity|].
  exists "Proxy error: ", newline. reflexivity.
Qed.

(** C1. Whatever request the director is given to prepare, its path
    (decoded and raw), query and fragment become those of the inbound
    request and its scheme and host those of the backend; and for an
    inbound request that resolves to a backend, the request handed to
    the transport is the inbound request with only scheme, host and
    destination rewritten (and the inbound request URI cleared). *)
Theorem C1_path_query_fragment_preserved (r : Request) (st : Store)
    (d : Domain) (st' : Store) (target : URL) :
  Host r <> "" ->
  database.GetDomain (proxy.domainName (Host r)) st = (Ok (Some d), st') ->
  url_Parse (proxy.targetURL (proxy.defaultProtocol d)) = Ok target ->
  (forall req,
      let out := proxy.Director target r req in
      Path (Url out) = Path (Url r) /\ RawPath (Url out) = RawPath (Url r)
      /\ RawQuery (Url out) = RawQuery (Url r)
      /\ Fragment (Url out) = Fragment (Url r)
      /\ Scheme (Url out) = Scheme target
      /\ URL_Host (Url out) = URL_Host target
      /\ Host out = URL_Host target)
  /\ proxy.ServeHTTP url_Parse RoundTrip r st
     = (match RoundTrip (rewritten target r) with
        | Ok res => res
        | Err err => proxy.ErrorHandler (rewritten target r) err
        end, st')
  /\ Path (Url (rewritten target r)) = Path (Url r)
  /\ RawPath (Url (rewritten target r)) = RawPath (Url r)
  /\ RawQuery (Url (rewritten target r)) = RawQuery (Url r)
  /\ Fragment (Url (rewritten target r)) = Fragment (Url r).
Proof.
  intros Hhost Hget Hparse. split; [|split].
  - intros req. cbn. now repeat split.
  - rewrite (ServeHTTP_hit _ _ _ _ Hhost Hget), Hparse. reflexivity.
  - now repeat split.
Qed.

(** C6. The routing key is the host itself when it has no colon and
    the part before its last colon otherwise, and the outcome of the
    request is decided by the registry's entry for that key. *)
Theorem C6_routing_key_strips_port (r : Request) (st : Store) :
  Host r <> "" ->
  (strings.containsByte ":" (Host r) = false ->
     proxy.domainName (Host r) = Host r)
  /\ (strings.containsByte ":" (Host r) = true ->
      exists d p, Host r = d +:+ ":" +:+ p
                  /\ strings.containsByte ":" p = false
                  /\ proxy.domainName (Host r) = d)
  /\ (forall d p, Host r = d +:+ ":" +:+ p ->
      strings.containsByte ":" p = false ->
      proxy.domainName (Host r) = d)
  /\ (faults st = [] ->
      table st !! proxy.domainName (Host r) = None ->
      proxy.ServeHTTP url_Parse RoundTrip r st
      = (Error "Domain not found" StatusNotFound, st))
  /\ (faults st = [] ->
      forall row target,
        table st !! proxy.domainName (Host r) = Some row ->
        url_Parse (proxy.targetURL
                     (proxy.defaultProtocol
                        (database.toDomain (proxy.domainName (Host r)) row)))
        = Ok target ->
        proxy.ServeHTTP url_Parse RoundTrip r st
        = (proxy.ReverseProxy_ServeHTTP RoundTrip (proxy.Director target r)
             proxy.ErrorHandler r, st)).
Proof.
  intros Hhost. split; [|split; [|split; [|split]]].
  - apply domainName_without_colon.
  - intros Hc. apply split_at_last in Hc as (d & p & Hsplit & Hp).
    exists d, p. split; [assumption|]. split; [assumption|].
    rewrite Hsplit. now apply (domainName_at_last_colon d p).
  - intros d p -> Hp. now apply domainName_at_last_colon.
  - intros Hf Hnone. unfold proxy.ServeHTTP.
    apply String.eqb_neq in Hhost. rewrite Hhost.
    now rewrite (GetDomain_quiet _ _ Hf), Hnone.
  - intros Hf row target Hrow Hparse.
    rewrite (ServeHTTP_hit r st
               (database.toDomain (proxy.domainName (Host r)) row) st Hhost).
    + now rewrite Hparse.
    + now rewrite (GetDomain_quiet _ _ Hf), Hrow.
Qed.

(** C9. When the record found has an empty scheme the outbound target
    is [http://address:port], and the lookup leaves the table, hence
    the stored record with its empty scheme, as it was. *)
Theorem C9_empty_scheme_read_as_http (r : Request) (st : Store)
    (d : Domain) (st' : Store) :
  Host r <> "" ->
  database.GetDomain (proxy.domainName (Host r)) st = (Ok (Some d), st') ->
  Domain_Protocol d = "" ->
  proxy.targetURL (proxy.defaultProtocol d)
  = "http://" +:+ Domain_IP d +:+ ":" +:+ pretty (Domain_Port d)
  /\ proxy.ServeHTTP url_Parse RoundTrip r st
     = (match url_Parse ("http://" +:+ Domain_IP d +:+ ":"
                           +:+ pretty (Domain_Port d)) with
        | Err _ => Error "Invalid target configuration" StatusInternalServerError
        | Ok target =>
            proxy.ReverseProxy_ServeHTTP RoundTrip (proxy.Director target r)
              proxy.ErrorHandler r
        end, st')
  /\ table (snd (proxy.ServeHTTP url_Parse RoundTrip r st)) = table st
  /\ protocol <$> table (snd (proxy.ServeHTTP url_Parse RoundTrip r st))
                    !! proxy.domainName (Host r)
     = Some "".
Proof.
  intros Hhost Hget Hp.
  assert (Htarget : proxy.targetURL (proxy.defaultProtocol d)
                    = "http://" +:+ Domain_IP d +:+ ":"
                        +:+ pretty (Domain_Port d)).
  { unfold proxy.defaultProtocol, proxy.targetURL. now rewrite Hp. }
  pose proof (ServeHTTP_hit _ _ _ _ Hhost Hget) as Hrun.
  rewrite Htarget in Hrun. rewrite Hrun. cbn [snd].
  apply GetDomain_Ok in Hget as [Hd [Ht _]].
  split; [assumption|]. split; [reflexivity|]. split; [assumption|].
  rewrite Ht. destruct (table st !! proxy.domainName (Host r)) as [row|];
    [|discriminate].
  injection Hd as ->. cbn in Hp. cbn. now rewrite Hp.
Qed.

End DispatcherClaims.

Section DispatcherExamples.
Import models sql http props fixtures.

Lemma C1_path_query_fragment_preserved_witness :
  fst (proxy.ServeHTTP parse backendUp inbound storeWithExample)
  = {| StatusCode := 200; ContentType := "text/html";
       Written := Stream "served /a/b" |}
  /\ Url (rewritten backend inbound)
     = {| Scheme := "http"; Opaque := ""; URL_Host := "10.1.1.1:80";
          Path := "/a/b"; RawPath := "/a%2Fb"; RawQuery := "x=1";
          Fragment := "frag"; RawFragment := "" |}.
Proof.
  destruct (C1_path_query_fragment_preserved parse backendUp inbound
              storeWithExample
              (database.toDomain "example.com"
                 {| ip := "10.1.1.1"; port := 80; protocol := "http";
                    created_at := 100; updated_at := 100 |})
              storeWithExample backend)
    as (_ & Hrun & _).
  - discriminate.
  - vm_compute. reflexivity.
  - vm_compute. reflexivity.
  - split; [|reflexivity]. rewrite Hrun. reflexivity.
Defined.

Lemma C6_routing_key_strips_port_witness :
  proxy.domainName "example.com:8443" = "example.com"
  /\ proxy.ServeHTTP parse backendUp inbound storeWithA
     = (Error "Domain not found" StatusNotFound, storeWithA)
  /\ proxy.ServeHTTP parse backendUp inbound storeWithExample
     = (proxy.ReverseProxy_ServeHTTP backendUp (proxy.Director backend inbound)
          proxy.ErrorHandler inbound, storeWithExample).
Proof.
  destruct (C6_routing_key_strips_port parse backendUp inbound storeWithA)
    as (_ & _ & Hsplit & Hmiss & _); [discriminate|].
  destruct (C6_routing_key_strips_port parse backendUp inbound storeWithExample)
    as (_ & _ & _ & _ & Hhit); [discriminate|].
  split; [|split].
  - apply (Hsplit "example.com" "8443"); reflexivity.
  - apply Hmiss; [reflexivity|vm_compute; reflexivity].
  - apply (Hhit eq_refl {| ip := "10.1.1.1"; port := 80; protocol := "http";
                           created_at := 100; updated_at := 100 |});
      vm_compute; reflexivity.
Defined.

Lemma C9_empty_scheme_read_as_http_witness :
  proxy.ServeHTTP parse backendUp inbound storeWithLegacy
  = (proxy.ReverseProxy_ServeHTTP backendUp (proxy.Director backend inbound)
       proxy.ErrorHandler inbound, storeWithLegacy)
  /\ protocol <$> table (snd (proxy.ServeHTTP parse backendUp inbound
                                storeWithLegacy)) !! "example.com"
     = Some "".
Proof.
  destruct (C9_empty_scheme_read_as_http parse backendUp inbound
              storeWithLegacy
              (database.toDomain "example.com"
                 {| ip := "10.1.1.1"; port := 80; protocol := "";
                    created_at := 100; updated_at := 100 |})
              storeWithLegacy)
    as (_ & Hrun & _ & Hrow).
  - discriminate.
  - vm_compute. reflexivity.
  - reflexivity.
  - split; [|exact Hrow]. rewrite Hrun. vm_compute. reflexivity.
Defined.

(** C7. When the backend refuses the connection, the response sent to
    the client carries the text of the underlying error, here with the
    backend's internal address; the failing lookup, on the same
    request, is answered with a fixed text. *)
Theorem C7_backend_error_sent_to_client :
  fst (proxy.ServeHTTP parse backendDown inbound storeWithExample)
  = Error "Proxy error: dial tcp 10.1.1.1:80: connect: connection refused"
      StatusBadGateway
  /\ exposes (fst (proxy.ServeHTTP parse backendDown inbound storeWithExample))
       "dial tcp 10.1.1.1:80: connect: connection refused"
  /\ fst (proxy.ServeHTTP parse backendDown inbound storeBroken)
     = Error "Internal server error" StatusInternalServerError.
Proof.
  split; [|split].
  - vm_compute. reflexivity.
  - exists "Proxy error: ", newline. vm_compute. reflexivity.
  - vm_compute. reflexivity.
Qed.

End DispatcherExamples.

(** ** The claim about the domain middleware *)

Section MiddlewareClaims.
Import models sql http props.

Lemma stripped_host_differs host allowed :
  strippedHostDiffers host allowed ->
  (if negb (Z.eqb (strings.LastIndex host ":") (-1))
   then strings.sliceTo host (strings.LastIndex host ":") else host)
  <> allowed.
Proof.
  intros [[Hc Hne]|(d & p & -> & Hp & Hne)].
  - now rewrite (strip_without_colon _ Hc).
  - change (proxy.domainName (d +:+ ":" +:+ p) <> allowed).
    now rewrite domainName_at_last_colon.
Qed.

(** C10. A request whose host, stripped at its last colon, is not the
    administrative domain is answered Forbidden by the domain
    middleware without the next handler being run and with the store
    untouched; in the chain of the [/api] routes this holds whatever
    the credentials and the route.  A host made of the administrative
    domain and a port suffix is passed to the next handler. *)
Theorem C10_domain_middleware_forbids (allowed : string) (r : Request)
    (st : Store) :
  (strippedHostDiffers (Host r) allowed ->
     forall next,
       api.DomainMiddleware allowed next r st
       = (Error "Forbidden: API access restricted to specific domain"
            StatusForbidden, st))
  /\ (strippedHostDiffers (Host r) allowed ->
      forall cfg route,
        main.APIDomain cfg = allowed ->
        main.apiRouter cfg route r st
        = (Error "Forbidden: API access restricted to specific domain"
             StatusForbidden, st))
  /\ (forall p, strings.containsByte ":" p = false ->
      Host r = allowed +:+ ":" +:+ p ->
      forall next, api.DomainMiddleware allowed next r st = next r st).
Proof.
  assert (Hforbid : strippedHostDiffers (Host r) allowed ->
            forall next,
              api.DomainMiddleware allowed next r st
              = (Error "Forbidden: API access restricted to specific domain"
                   StatusForbidden, st)).
  { intros Hdiff next. unfold api.DomainMiddleware.
    apply stripped_host_differs, String.eqb_neq in Hdiff.
    now rewrite Hdiff. }
  split; [assumption|split].
  - intros Hdiff cfg route <-. unfold main.apiRouter. now apply Hforbid.
  - intros p Hp Hhost next. unfold api.DomainMiddleware.
    change (if negb (Z.eqb (strings.LastIndex (Host r) ":") (-1))
            then strings.sliceTo (Host r) (strings.LastIndex (Host r) ":")
            else Host r)
      with (proxy.domainName (Host r)).
    rewrite Hhost, (domainName_at_last_colon _ _ Hp).
    now rewrite String.eqb_refl.
Qed.

Lemma C10_domain_middleware_forbids_witness :
  main.apiRouter
    {| main.ProxyAPIKey := "my-secret-key";
       main.APIDomain := "api.example.com";
       main.DBPath := "data/proxy.db"; main.Port := 80;
       main.Debug := false |}
    api.CreateDomain
    (fixtures.request "POST" "example.com:80" "/api/config"
       (Body (fixtures.post fixtures.b_com)))
    fixtures.storeWithA
  = (Error "Forbidden: API access restricted to specific domain"
       StatusForbidden, fixtures.storeWithA)
  /\ api.DomainMiddleware "api.example.com"
       (api.CreateDomain fixtures.handlers)
       (fixtures.request "POST" "api.example.com:8080" "/api/config"
          (Body (fixtures.post fixtures.b_com)))
       fixtures.storeWithA
     = api.CreateDomain fixtures.handlers
         (fixtures.request "POST" "api.example.com:8080" "/api/config"
            (Body (fixtures.post fixtures.b_com)))
         fixtures.storeWithA.
Proof.
  split.
  - apply (proj1 (proj2 (C10_domain_middleware_forbids "api.example.com"
                           (fixtures.request "POST" "example.com:80"
                              "/api/config"
                              (Body (fixtures.post fixtures.b_com)))
                           fixtures.storeWithA))).
    + right. exists "example.com", "80". repeat split. discriminate.
    + reflexivity.
  - apply (proj2 (proj2 (C10_domain_middleware_forbids "api.example.com"
                           (fixtures.request "POST" "api.example.com:8080"
                              "/api/config"
                              (Body (fixtures.post fixtures.b_com)))
                           fixtures.storeWithA)) "8080"); reflexivity.
Defined.

End MiddlewareClaims.

(** * Further properties of the registry *)

Section RegistryOperations.
Import models sql database props.

Lemma ExecDelete_table domain st r st' :
  ExecDelete domain st = (r, st') ->
  clock st' = clock st
  /\ ((table st' = table st
       /\ ((r = Ok 0 /\ table st !! domain = None) \/ exists e, r = Err e))
      \/ (is_Some (table st !! domain) /\ r = Ok 1
          /\ table st' = delete domain (table st))).
Proof.
  unfold ExecDelete, bind.
  destruct (driver st) as [[[]|e] st1] eqn:Hd;
    apply driver_sameData in Hd as [Ht Hc]; intros H.
  - unfold delete_row in H. rewrite Ht in H.
    destruct (table st !! domain) as [old|] eqn:Hold;
      injection H as <- <-; cbn.
    + split; [assumption|]. right. split; [eauto|]. now split.
    + split; [assumption|]. left. split; [reflexivity|]. left. now split.
  - injection H as <- <-. split; [assumption|]. left.
    split; [assumption|]. right. eauto.
Qed.

Lemma DeleteDomain_table domain st r st' :
  DeleteDomain domain st = (r, st') ->
  (table st' = table st /\ exists e, r = Err e)
  \/ (is_Some (table st !! domain) /\ r = Ok tt
      /\ table st' = delete domain (table st)).
Proof.
  unfold DeleteDomain, bind, wrap.
  destruct (ExecDelete domain st) as [[n|e] st1] eqn:Hx;
    apply ExecDelete_table in Hx
      as [Hc [[Ht [[Hr _]|(e0 & Hr)]]|(Hsome & Hr & Ht)]];
    intros H.
  - injection Hr as ->. injection H as <- <-. left. split; [assumption|eauto].
  - discriminate Hr.
  - injection Hr as ->. injection H as <- <-. right. now repeat split.
  - discriminate Hr.
  - injection H as <- <-. left. split; [assumption|eauto].
  - discriminate Hr.
Qed.

Lemma CreateDomain_quiet req st :
  faults st = [] -> table st !! Create_Domain req = None ->
  CreateDomain req st
  = (Ok (Some (createdRecord (clock st) req)),
     set_table (<[Create_Domain req := storedRow (clock st) req]> (table st)) st).
Proof.
  intros Hf Hnone. unfold CreateDomain, bind, wrap, ExecInsert, bind.
  rewrite (driver_quiet _ Hf). unfold insert_row. rewrite Hnone.
  rewrite GetDomain_quiet by assumption. cbn [table set_table].
  now rewrite lookup_insert_eq.
Qed.

Lemma noDuplicate_inv batch (t : gmap string Row) :
  ~ hasDuplicate batch t ->
  NoDup (keys batch)
  /\ forall req, req ∈ batch -> t !! Create_Domain req = None.
Proof.
  intros Hno. split.
  - destruct (decide (NoDup (keys batch))) as [H|H]; [assumption|].
    exfalso. apply Hno. now right.
  - intros req Hin. destruct (t !! Create_Domain req) eqn:E; [|reflexivity].
    exfalso. apply Hno. left. exists req. rewrite E. eauto.
Qed.

(** X1. On an engine that works, inserting a domain that is not stored
    returns the record with the request's fields, the default scheme
    when none is given and both timestamps at the current time, stores
    exactly that row, and a lookup of the domain afterwards returns the
    same record. *)
Theorem insert_then_lookup_returns_record (req : CreateDomainRequest)
    (st : Store) :
  faults st = [] -> table st !! Create_Domain req = None ->
  exists st',
    CreateDomain req st = (Ok (Some (createdRecord (clock st) req)), st')
    /\ table st'
       = <[Create_Domain req := storedRow (clock st) req]> (table st)
    /\ GetDomain (Create_Domain req) st'
       = (Ok (Some (createdRecord (clock st) req)), st').
Proof.
  intros Hf Hnone. eexists. split; [now apply CreateDomain_quiet|].
  split; [reflexivity|].
  rewrite GetDomain_quiet by assumption. cbn [table set_table].
  now rewrite lookup_insert_eq.
Qed.

Lemma insert_then_lookup_returns_record_witness :
  exists st',
    CreateDomain fixtures.b_com fixtures.storeWithA
    = (Ok (Some {| Domain_Domain := "b.com"; Domain_IP := "10.0.0.2";
                   Domain_Port := 9090; Domain_Protocol := "http";
                   Domain_CreatedAt := 200; Domain_UpdatedAt := 200 |}), st')
    /\ GetDomain "b.com" st'
       = (Ok (Some {| Domain_Domain := "b.com"; Domain_IP := "10.0.0.2";
                      Domain_Port := 9090; Domain_Protocol := "http";
                      Domain_CreatedAt := 200; Domain_UpdatedAt := 200 |}), st').
Proof.
  destruct (insert_then_lookup_returns_record fixtures.b_com fixtures.storeWithA)
    as (st' & Hc & _ & Hg).
  - reflexivity.
  - vm_compute. reflexivity.
  - exists st'. split; assumption.
Defined.

(** X2. An insert, an update or a delete of one domain leaves the row of
    every other domain as it was, whether the operation succeeds or
    fails. *)
Theorem single_mutations_leave_other_domains (domain k : string) (st : Store) :
  k <> domain ->
  (forall req, Create_Domain req = domain ->
     table (snd (CreateDomain req st)) !! k = table st !! k)
  /\ (forall req, table (snd (UpdateDomain domain req st)) !! k = table st !! k)
  /\ table (snd (DeleteDomain domain st)) !! k = table st !! k.
Proof.
  intros Hne. split; [|split].
  - intros req <-.
    destruct (CreateDomain req st) as [r st'] eqn:Hrun. cbn [snd].
    apply CreateDomain_table in Hrun as [[Ht _]|[_ Ht]]; rewrite Ht;
      [reflexivity|].
    now rewrite lookup_insert_ne by congruence.
  - intros req.
    destruct (UpdateDomain domain req st) as [r st'] eqn:Hrun. cbn [snd].
    apply UpdateDomain_table in Hrun as [Ht|(old & _ & Ht)]; rewrite Ht;
      [reflexivity|].
    now rewrite lookup_insert_ne by congruence.
  - destruct (DeleteDomain domain st) as [r st'] eqn:Hrun. cbn [snd].
    apply DeleteDomain_table in Hrun as [[Ht _]|(_ & _ & Ht)]; rewrite Ht;
      [reflexivity|].
    now rewrite lookup_delete_ne by congruence.
Qed.

Lemma single_mutations_leave_other_domains_witness :
  table (snd (CreateDomain fixtures.b_com fixtures.storeWithA)) !! "a.com"
  = table fixtures.storeWithA !! "a.com"
  /\ table (snd (DeleteDomain "b.com" fixtures.storeWithA)) !! "a.com"
     = table fixtures.storeWithA !! "a.com".
Proof.
  destruct (single_mutations_leave_other_domains "b.com" "a.com"
              fixtures.storeWithA) as (Hc & _ & Hd); [discriminate|].
  split; [now apply Hc|exact Hd].
Defined.

(** X3. Deleting a domain that is not stored fails and leaves the table
    as it was; when the engine works the error is "domain not found". *)
Theorem delete_missing_domain_not_found (domain : string) (st : Store) :
  table st !! domain = None ->
  (exists e, fst (DeleteDomain domain st) = Err e)
  /\ table (snd (DeleteDomain domain st)) = table st
  /\ (forall st1, driver st = (Ok tt, st1) ->
      DeleteDomain domain st = (Err "domain not found", st1)).
Proof.
  intros Hnone.
  destruct (DeleteDomain domain st) as [r st'] eqn:Hrun. cbn [fst snd].
  pose proof Hrun as Hcase.
  apply DeleteDomain_table in Hcase as [[Ht (e & ->)]|(Hsome & _)].
  - split; [eauto|]. split; [assumption|].
    intros st1 Hd. rewrite <- Hrun.
    unfold DeleteDomain, bind, wrap, ExecDelete, bind. rewrite Hd.
    unfold delete_row. pose proof (driver_sameData _ _ _ Hd) as [Ht1 _].
    rewrite <- Ht1 in Hnone. rewrite Hnone. clear. now destruct st1.
  - rewrite Hnone in Hsome. now destruct Hsome.
Qed.

Lemma delete_missing_domain_not_found_witness :
  DeleteDomain "b.com" fixtures.storeWithA
  = (Err "domain not found", fixtures.storeWithA).
Proof.
  apply (delete_missing_domain_not_found "b.com" fixtures.storeWithA).
  - vm_compute. reflexivity.
  - reflexivity.
Defined.

Lemma DeleteDomain_quiet domain st row :
  faults st = [] -> table st !! domain = Some row ->
  DeleteDomain domain st = (Ok tt, set_table (delete domain (table st)) st).
Proof.
  intros Hf Hrow. unfold DeleteDomain, bind, wrap, ExecDelete, bind.
  rewrite (driver_quiet _ Hf). unfold delete_row. now rewrite Hrow.
Qed.

(** X4. On an engine that works, deleting a stored domain succeeds and
    removes its row, and a lookup of the domain afterwards finds
    nothing. *)
Theorem delete_existing_domain_removes_it (domain : string) (st : Store)
    (row : Row) :
  faults st = [] -> table st !! domain = Some row ->
  DeleteDomain domain st = (Ok tt, set_table (delete domain (table st)) st)
  /\ GetDomain domain (set_table (delete domain (table st)) st)
     = (Ok None, set_table (delete domain (table st)) st).
Proof.
  intros Hf Hrow. split.
  - now apply (DeleteDomain_quiet domain st row).
  - rewrite GetDomain_quiet by assumption. cbn [table set_table].
    now rewrite lookup_delete_eq.
Qed.

Lemma delete_existing_domain_removes_it_witness :
  fst (DeleteDomain "a.com" fixtures.storeWithA) = Ok tt
  /\ table (snd (DeleteDomain "a.com" fixtures.storeWithA)) = ∅.
Proof.
  destruct (delete_existing_domain_removes_it "a.com" fixtures.storeWithA
              {| ip := "10.0.0.1"; port := 8080; protocol := "https";
                 created_at := 100; updated_at := 100 |}) as [Hd _].
  - reflexivity.
  - vm_compute. reflexivity.
  - rewrite Hd. split; [reflexivity|]. vm_compute. reflexivity.
Defined.

(** X5. On an engine that works, inserting a domain that is not stored
    and deleting it again gives back the table the two calls started
    from. *)
Theorem insert_then_delete_restores_registry (req : CreateDomainRequest)
    (st : Store) :
  faults st = [] -> table st !! Create_Domain req = None ->
  fst (DeleteDomain (Create_Domain req) (snd (CreateDomain req st))) = Ok tt
  /\ table (snd (DeleteDomain (Create_Domain req) (snd (CreateDomain req st))))
     = table st.
Proof.
  intros Hf Hnone. rewrite (CreateDomain_quiet _ _ Hf Hnone). cbn [snd].
  rewrite (DeleteDomain_quiet (Create_Domain req)
             (set_table (<[Create_Domain req := storedRow (clock st) req]>
                           (table st)) st)
             (storedRow (clock st) req)).
  - cbn [fst snd table set_table]. split; [reflexivity|].
    now apply delete_insert_id.
  - assumption.
  - cbn [table set_table]. apply lookup_insert_eq.
Qed.

Lemma insert_then_delete_restores_registry_witness :
  table (snd (DeleteDomain "b.com"
                (snd (CreateDomain fixtures.b_com fixtures.storeWithA))))
  = table fixtures.storeWithA.
Proof.
  apply (insert_then_delete_restores_registry fixtures.b_com
           fixtures.storeWithA).
  - reflexivity.
  - vm_compute. reflexivity.
Defined.

End RegistryOperations.

Section RegistryUpdates.
Import models sql database props.

Lemma UpdateDomain_quiet_missing domain req st :
  faults st = [] -> table st !! domain = None ->
  UpdateDomain domain req st = (Ok None, st).
Proof.
  intros Hf Hnone. unfold UpdateDomain.
  destruct (String.eqb (Update_Protocol req) "").
  - unfold bind, wrap. rewrite (GetDomain_quiet _ _ Hf), Hnone. reflexivity.
  - unfold bind, wrap, ExecUpdate, bind. rewrite (driver_quiet _ Hf).
    unfold update_row. rewrite Hnone. cbn. clear. now destruct st.
Qed.

Lemma UpdateDomain_None_unchanged domain req st st' :
  UpdateDomain domain req st = (Ok None, st') -> table st' = table st.
Proof.
  assert (Hupd : forall p st1 st2,
    (rowsAffected <- wrap "failed to update domain: "
                       (ExecUpdate (Update_IP req) (Update_Port req) p domain) ;;
     if Z.eqb rowsAffected 0 then ret None else GetDomain domain) st1
    = (Ok None, st2) -> table st2 = table st1).
  { intros p st1 st2 H. apply bind_Ok in H as (n & st3 & Hx & Hk).
    apply wrap_Ok, ExecUpdate_table in Hx
      as [Hc [[Ht Hn]|(old & Hold & Hr & Ht)]].
    - destruct (Z.eqb n 0).
      + injection Hk as <-. assumption.
      + apply GetDomain_sameData in Hk as [Ht' _]. congruence.
    - injection Hr as ->. cbn in Hk. apply GetDomain_Ok in Hk as [Hd _].
      rewrite Ht, lookup_insert_eq in Hd. discriminate. }
  unfold UpdateDomain. destruct (String.eqb (Update_Protocol req) "").
  - intros H. apply bind_Ok in H as (existing & st1 & Hg & Hk).
    apply wrap_Ok, GetDomain_Ok in Hg as [_ [Ht _]].
    destruct existing as [e|].
    + apply Hupd in Hk. congruence.
    + injection Hk as <-. assumption.
  - apply Hupd.
Qed.

(** X6. An update of a domain that is not stored creates nothing: the
    table stays as it was, and when the engine works the call returns
    neither a record nor an error. *)
Theorem update_missing_domain_creates_nothing (domain : string)
    (req : UpdateDomainRequest) (st : Store) :
  table st !! domain = None ->
  table (snd (UpdateDomain domain req st)) = table st
  /\ (faults st = [] -> UpdateDomain domain req st = (Ok None, st)).
Proof.
  intros Hnone. split.
  - destruct (UpdateDomain domain req st) as [r st'] eqn:Hrun. cbn [snd].
    apply UpdateDomain_table in Hrun as [Ht|(old & Hold & _)]; [assumption|].
    congruence.
  - intros Hf. now apply UpdateDomain_quiet_missing.
Qed.

Lemma update_missing_domain_creates_nothing_witness :
  UpdateDomain "b.com" fixtures.updateWithoutScheme fixtures.storeWithA
  = (Ok None, fixtures.storeWithA).
Proof.
  apply (update_missing_domain_creates_nothing "b.com"
           fixtures.updateWithoutScheme fixtures.storeWithA).
  - vm_compute. reflexivity.
  - reflexivity.
Defined.

(** X7. On an engine that works, an update of a stored domain replaces
    its address and port, takes the scheme of the request or, when the
    request has none, keeps the stored one, keeps the creation time and
    stamps the update time; the record returned is the row stored. *)
Theorem update_existing_domain_rewrites_record (domain : string)
    (req : UpdateDomainRequest) (st : Store) (old : Row) :
  faults st = [] -> table st !! domain = Some old ->
  let new := updatedRow (clock st) req
               (if String.eqb (Update_Protocol req) "" then protocol old
                else Update_Protocol req) old in
  UpdateDomain domain req st
  = (Ok (Some (toDomain domain new)),
     set_table (<[domain := new]> (table st)) st).
Proof.
  intros Hf Hold new. unfold UpdateDomain.
  assert (Hupd : forall p,
    (rowsAffected <- wrap "failed to update domain: "
                       (ExecUpdate (Update_IP req) (Update_Port req) p domain) ;;
     if Z.eqb rowsAffected 0 then ret None else GetDomain domain) st
    = (Ok (Some (toDomain domain (updatedRow (clock st) req p old))),
       set_table (<[domain := updatedRow (clock st) req p old]> (table st)) st)).
  { intros p. unfold bind, wrap, ExecUpdate, bind.
    rewrite (driver_quiet _ Hf). unfold update_row. rewrite Hold. cbn [Z.eqb].
    rewrite GetDomain_quiet by assumption. cbn [table set_table].
    now rewrite lookup_insert_eq. }
  subst new. destruct (String.eqb (Update_Protocol req) "").
  - unfold bind at 1, wrap at 1. rewrite (GetDomain_quiet _ _ Hf), Hold.
    cbn [fmap option_fmap option_map]. apply (Hupd (protocol old)).
  - apply Hupd.
Qed.

Lemma update_existing_domain_rewrites_record_witness :
  fst (UpdateDomain "a.com"
         {| Update_IP := "10.0.0.2"; Update_Port := 9090;
            Update_Protocol := "http" |} fixtures.storeWithA)
  = Ok (Some {| Domain_Domain := "a.com"; Domain_IP := "10.0.0.2";
                Domain_Port := 9090; Domain_Protocol := "http";
                Domain_CreatedAt := 100; Domain_UpdatedAt := 200 |})
  /\ fst (UpdateDomain "a.com" fixtures.updateWithoutScheme fixtures.storeWithA)
     = Ok (Some {| Domain_Domain := "a.com"; Domain_IP := "10.0.0.2";
                   Domain_Port := 9090; Domain_Protocol := "https";
                   Domain_CreatedAt := 100; Domain_UpdatedAt := 200 |}).
Proof.
  split.
  - rewrite (update_existing_domain_rewrites_record "a.com" _
               fixtures.storeWithA
               {| ip := "10.0.0.1"; port := 8080; protocol := "https";
                  created_at := 100; updated_at := 100 |});
      [reflexivity|reflexivity|vm_compute; reflexivity].
  - rewrite (update_existing_domain_rewrites_record "a.com" _
               fixtures.storeWithA
               {| ip := "10.0.0.1"; port := 8080; protocol := "https";
                  created_at := 100; updated_at := 100 |});
      [reflexivity|reflexivity|vm_compute; reflexivity].
Defined.

(** X8. A lookup never changes the table or the clock; when it returns
    without error its answer is exactly the stored row of the domain
    asked for, or nothing when the domain is not stored; and its only
    error is the engine's, prefixed with "failed to get domain: ". *)
Theorem lookup_is_exact_and_read_only (domain : string) (st : Store) :
  sameData st (snd (GetDomain domain st))
  /\ (forall d, fst (GetDomain domain st) = Ok d ->
      d = toDomain domain <$> table st !! domain)
  /\ (forall e, fst (GetDomain domain st) = Err e ->
      exists e0 rest, faults st = Some e0 :: rest
                      /\ e = "failed to get domain: " +:+ e0).
Proof.
  destruct (GetDomain domain st) as [r st'] eqn:Hrun. cbn [fst snd].
  split; [now apply GetDomain_sameData in Hrun|]. split.
  - intros d ->. now apply GetDomain_Ok in Hrun.
  - intros e ->. revert Hrun. unfold GetDomain, bind, wrap, QueryRow, bind, driver.
    destruct (faults st) as [|[e0|] rest]; cbn.
    + destruct (table st !! domain); discriminate.
    + intros [= <- _]. eauto.
    + destruct (table _ !! domain); discriminate.
Qed.

Lemma lookup_is_exact_and_read_only_witness :
  Some {| Domain_Domain := "a.com"; Domain_IP := "10.0.0.1";
          Domain_Port := 8080; Domain_Protocol := "https";
          Domain_CreatedAt := 100; Domain_UpdatedAt := 100 |}
  = toDomain "a.com" <$> table fixtures.storeWithA !! "a.com"
  /\ exists e0 rest,
       faults fixtures.storeBroken = Some e0 :: rest
       /\ "failed to get domain: unable to open database file: /app/data/proxy.db"
          = "failed to get domain: " +:+ e0.
Proof.
  destruct (lookup_is_exact_and_read_only "a.com" fixtures.storeWithA)
    as (_ & Hok & _).
  destruct (lookup_is_exact_and_read_only "a.com" fixtures.storeBroken)
    as (_ & _ & Herr).
  split; [apply Hok|apply Herr]; vm_compute; reflexivity.
Defined.

End RegistryUpdates.

Section BatchComposition.
Import models sql database props.

Lemma bulkInsertLoop_quiet_fold batch : forall tx names st,
  faults st = [] -> NoDup (keys batch) ->
  (forall req, req ∈ batch -> pending tx !! Create_Domain req = None) ->
  bulkInsertLoop tx batch names st
  = (Ok ({| pending := foldl (added (clock st)) (pending tx) batch |},
         (names ++ keys batch)%list), st).
Proof.
  induction batch as [|req rest IH]; intros tx names st Hf Hnd Hfree.
  - cbn. rewrite app_nil_r. now destruct tx.
  - cbn in Hnd. apply NoDup_cons in Hnd as [Hfresh Hnd].
    cbn [bulkInsertLoop]. unfold bind at 1, wrap, TxExecInsert, bind.
    rewrite (driver_quiet _ Hf). unfold insert_row.
    rewrite (Hfree req) by apply list_elem_of_here.
    rewrite IH; [|assumption|assumption|].
    + cbn. now rewrite <- app_assoc.
    + intros r Hr. cbn. rewrite lookup_insert_ne.
      * apply Hfree. now apply list_elem_of_further.
      * intros E. apply Hfresh. rewrite E. apply list_elem_of_fmap. eauto.
Qed.

Lemma bulkFetchLoop_quiet_exact now batch : forall created st,
  faults st = [] ->
  (forall req, req ∈ batch ->
     table st !! Create_Domain req = Some (storedRow now req)) ->
  bulkFetchLoop (keys batch) created st
  = (Ok (created ++ map (createdRecord now) batch)%list, st).
Proof.
  induction batch as [|req rest IH]; intros created st Hf Hrows.
  - cbn. now rewrite app_nil_r.
  - cbn [keys map bulkFetchLoop]. unfold bind, wrap.
    rewrite (GetDomain_quiet _ _ Hf), (Hrows req) by apply list_elem_of_here.
    cbn [fmap option_fmap option_map]. fold (keys rest).
    rewrite IH; [|assumption|].
    + now rewrite <- app_assoc.
    + intros r Hr. apply Hrows. now apply list_elem_of_further.
Qed.

Lemma BulkCreateDomains_quiet_exact batch st :
  faults st = [] -> NoDup (keys batch) ->
  (forall req, req ∈ batch -> table st !! Create_Domain req = None) ->
  fst (BulkCreateDomains batch st) = Ok (map (createdRecord (clock st)) batch)
  /\ table (snd (BulkCreateDomains batch st))
     = foldl (added (clock st)) (table st) batch.
Proof.
  intros Hf Hnd Hfree. destruct batch as [|req0 rest]; [now split|].
  set (batch := req0 :: rest) in *.
  assert (Hrun : BulkCreateDomains batch st
                 = (Ok (map (createdRecord (clock st)) batch),
                    set_table (foldl (added (clock st)) (table st) batch) st)).
  { change (BulkCreateDomains batch st) with
      ((tx <- wrap "failed to begin transaction: " Begin ;;
        _ <- wrap "failed to prepare statement: " (Prepare tx) ;;
        inserted <- bulkInsertLoop tx batch [] ;;
        _ <- wrap "failed to commit transaction: " (Commit (fst inserted)) ;;
        bulkFetchLoop (snd inserted) []) st).
    unfold bind at 1, wrap at 1, Begin, bind at 1.
    rewrite (driver_quiet _ Hf). cbn iota beta.
    unfold bind at 1, wrap at 1, Prepare. rewrite (driver_quiet _ Hf).
    cbn iota beta.
    pose proof (bulkInsertLoop_quiet_fold batch {| pending := table st |} [] st
                  Hf Hnd Hfree) as Hloop.
    pose proof (bulkInsertLoop_Ok _ _ _ _ _ _ _ Hloop)
      as (_ & _ & _ & _ & Hper & _).
    unfold bind at 1. rewrite Hloop. cbn [fst snd pending].
    unfold bind at 1, wrap at 1, Commit, bind at 1.
    rewrite (driver_quiet _ Hf). cbn iota beta. cbn [pending].
    rewrite (bulkFetchLoop_quiet_exact (clock st) batch []);
      [reflexivity|assumption|exact Hper]. }
  rewrite Hrun. split; reflexivity.
Qed.

(** X9. On an engine that works, a batch without duplicates returns one
    record per request, in the order of the batch, each with the
    request's fields, the default scheme when none is given and the
    current time. *)
Theorem bulk_insert_returns_batch_in_order (batch : list CreateDomainRequest)
    (st : Store) :
  faults st = [] -> ~ hasDuplicate batch (table st) ->
  fst (BulkCreateDomains batch st) = Ok (map (createdRecord (clock st)) batch).
Proof.
  intros Hf Hno. apply noDuplicate_inv in Hno as [Hnd Hfree].
  now apply BulkCreateDomains_quiet_exact.
Qed.

Lemma no_duplicate_b_c :
  ~ hasDuplicate [fixtures.b_com; fixtures.c_com] (table fixtures.storeWithA).
Proof.
  intros [(req & Hin & Hs)|Hn].
  - apply elem_of_cons in Hin as [->|Hin];
      [vm_compute in Hs; destruct Hs; discriminate|].
    apply list_elem_of_singleton in Hin as ->.
    vm_compute in Hs. destruct Hs; discriminate.
  - apply Hn. apply (bool_decide_unpack _). vm_compute. reflexivity.
Defined.

Lemma bulk_insert_returns_batch_in_order_witness :
  fst (BulkCreateDomains [fixtures.b_com; fixtures.c_com] fixtures.storeWithA)
  = Ok [ {| Domain_Domain := "b.com"; Domain_IP := "10.0.0.2";
            Domain_Port := 9090; Domain_Protocol := "http";
            Domain_CreatedAt := 200; Domain_UpdatedAt := 200 |};
         {| Domain_Domain := "c.com"; Domain_IP := "10.0.0.3";
            Domain_Port := 80; Domain_Protocol := "http";
            Domain_CreatedAt := 200; Domain_UpdatedAt := 200 |} ].
Proof.
  apply (bulk_insert_returns_batch_in_order [fixtures.b_com; fixtures.c_com]
           fixtures.storeWithA eq_refl no_duplicate_b_c).
Defined.

Lemma untimed_foldl_added now batch : forall t : gmap string Row,
  untimed <$> foldl (added now) t batch
  = foldl addedUntimed (untimed <$> t) batch.
Proof.
  induction batch as [|req rest IH]; intros t; [reflexivity|].
  cbn [foldl]. rewrite IH. f_equal. unfold added, addedUntimed.
  now rewrite fmap_insert.
Qed.

Lemma insertedOneByOneAt_quiet batch : forall times st,
  length times = length batch ->
  faults st = [] -> NoDup (keys batch) ->
  (forall req, req ∈ batch -> table st !! Create_Domain req = None) ->
  untimed <$> table (insertedOneByOneAt (zip times batch) st)
  = foldl addedUntimed (untimed <$> table st) batch.
Proof.
  induction batch as [|req rest IH]; intros times st Hlen Hf Hnd Hfree.
  - destruct times; reflexivity.
  - destruct times as [|t times]; [discriminate|].
    cbn in Hnd. apply NoDup_cons in Hnd as [Hfresh Hnd].
    cbn [zip zip_with]. unfold insertedOneByOneAt. cbn [foldl fst snd].
    rewrite (CreateDomain_quiet req (atTime t st));
      [|assumption|apply Hfree, list_elem_of_here]. cbn [snd].
    fold (insertedOneByOneAt (zip times rest)
            (set_table (<[Create_Domain req := storedRow (clock (atTime t st)) req]>
                          (table (atTime t st))) (atTime t st))).
    rewrite IH.
    + cbn [table set_table atTime clock foldl]. f_equal.
      unfold addedUntimed. now rewrite fmap_insert.
    + now injection Hlen.
    + assumption.
    + assumption.
    + intros r Hr. cbn [table set_table atTime]. rewrite lookup_insert_ne.
      * apply Hfree. now apply list_elem_of_further.
      * intros E. apply Hfresh. rewrite E. apply list_elem_of_fmap. eauto.
Qed.

(** X10. On an engine that works, a batch without duplicates leaves,
    apart from the timestamps, the same table as inserting its records
    one after the other with single inserts, at whatever times those
    run. *)
Theorem bulk_insert_equals_single_inserts (batch : list CreateDomainRequest)
    (st : Store) (times : list Time) :
  faults st = [] -> ~ hasDuplicate batch (table st) ->
  length times = length batch ->
  untimed <$> table (snd (BulkCreateDomains batch st))
  = untimed <$> table (insertedOneByOneAt (zip times batch) st).
Proof.
  intros Hf Hno Hlen. apply noDuplicate_inv in Hno as [Hnd Hfree].
  rewrite insertedOneByOneAt_quiet by assumption.
  destruct (BulkCreateDomains_quiet_exact batch st Hf Hnd Hfree) as [_ ->].
  apply untimed_foldl_added.
Qed.

Lemma bulk_insert_equals_single_inserts_witness :
  untimed <$> table (snd (BulkCreateDomains [fixtures.b_com; fixtures.c_com]
                            fixtures.storeWithA))
  = untimed <$> table (snd (CreateDomain fixtures.c_com
                              (atTime 400
                                 (snd (CreateDomain fixtures.b_com
                                         (atTime 300 fixtures.storeWithA)))))).
Proof.
  apply (bulk_insert_equals_single_inserts [fixtures.b_com; fixtures.c_com]
           fixtures.storeWithA [300; 400] eq_refl no_duplicate_b_c eq_refl).
Defined.

End BatchComposition.

Section ListingFacts.
Import models sql database props.

Variable parseListed : Time -> Time.

Lemma byDomain_total : Total byDomain.
Proof. intros a b. unfold byDomain. apply String.le_total. Qed.

Lemma orderByDomain_sorted (t : gmap string Row) :
  Sorted String.le (orderByDomain t).*1.
Proof.
  apply (Sorted_fmap fst byDomain String.le); [now intros x y|].
  apply (@Sorted_merge_sort _ byDomain byDomain_dec byDomain_total).
Qed.

Lemma orderByDomain_perm (t : gmap string Row) :
  orderByDomain t ≡ₚ map_to_list t.
Proof. apply merge_sort_Permutation. Qed.

Lemma listedDomain_names (rows : list (string * Row)) :
  map Domain_Domain (map (listedDomain parseListed) rows) = rows.*1.
Proof. induction rows as [|row rows IH]; [reflexivity|]. cbn. now rewrite IH. Qed.

Lemma GetAllDomains_Ok st l st' :
  GetAllDomains parseListed st = (Ok l, st') ->
  l = map (listedDomain parseListed) (orderByDomain (table st))
  /\ sameData st st'.
Proof.
  intros H. apply bind_Ok in H as (rows & st1 & Hq & H).
  apply wrap_Ok, bind_Ok in Hq as (u & st0 & Hd & Hq).
  apply driver_sameData in Hd as [Ht0 Hc0]. injection Hq as <- <-.
  apply bind_Ok in H as (u' & st2 & He & H).
  apply wrap_Ok, driver_sameData in He as [Ht2 Hc2]. injection H as <- <-.
  rewrite Ht0. split; [reflexivity|]. split; congruence.
Qed.

(** X11. The listing, when it succeeds, holds one record for every
    stored domain and no other, with the stored address, port and
    scheme, in increasing order of the domain names; it changes neither
    the table nor the clock, and on an engine that works it succeeds. *)
Theorem listing_is_sorted_and_complete (st : Store) :
  (forall l st', GetAllDomains parseListed st = (Ok l, st') ->
     sameData st st'
     /\ Sorted String.le (map Domain_Domain l)
     /\ NoDup (map Domain_Domain l)
     /\ length l = size (table st)
     /\ (forall d, d ∈ l <->
           exists row, table st !! Domain_Domain d = Some row
                       /\ d = listedDomain parseListed (Domain_Domain d, row)))
  /\ (faults st = [] ->
      GetAllDomains parseListed st
      = (Ok (map (listedDomain parseListed) (orderByDomain (table st))), st)).
Proof.
  split.
  - intros l st' Hrun. apply GetAllDomains_Ok in Hrun as [-> Hsame].
    split; [assumption|]. rewrite listedDomain_names.
    split; [apply orderByDomain_sorted|]. split; [|split].
    + rewrite (orderByDomain_perm (table st)). apply NoDup_fst_map_to_list.
    + rewrite length_map, (orderByDomain_perm (table st)).
      apply length_map_to_list.
    + intros d. split.
      * intros Hin. apply list_elem_of_fmap in Hin as ([k row] & -> & Hin).
        rewrite (orderByDomain_perm (table st)) in Hin.
        apply elem_of_map_to_list in Hin. exists row. now split.
      * intros (row & Hrow & ->). apply list_elem_of_fmap.
        exists (Domain_Domain d, row). split; [reflexivity|].
        rewrite (orderByDomain_perm (table st)).
        now apply elem_of_map_to_list.
  - intros Hf. unfold GetAllDomains, bind, wrap, Query, RowsErr, bind.
    rewrite (driver_quiet _ Hf). cbn iota beta.
    rewrite (driver_quiet _ Hf). reflexivity.
Qed.

End ListingFacts.

Lemma listing_is_sorted_and_complete_witness :
  fst (database.GetAllDomains (fun ts => ts)
         (snd (database.BulkCreateDomains [fixtures.c_com; fixtures.b_com]
                 fixtures.storeWithA)))
  = Ok [ {| models.Domain_Domain := "a.com"; models.Domain_IP := "10.0.0.1";
            models.Domain_Port := 8080; models.Domain_Protocol := "https";
            models.Domain_CreatedAt := 100; models.Domain_UpdatedAt := 100 |};
         {| models.Domain_Domain := "b.com"; models.Domain_IP := "10.0.0.2";
            models.Domain_Port := 9090; models.Domain_Protocol := "http";
            models.Domain_CreatedAt := 200; models.Domain_UpdatedAt := 200 |};
         {| models.Domain_Domain := "c.com"; models.Domain_IP := "10.0.0.3";
            models.Domain_Port := 80; models.Domain_Protocol := "http";
            models.Domain_CreatedAt := 200; models.Domain_UpdatedAt := 200 |} ]
  /\ length (A := models.Domain)
       [ {| models.Domain_Domain := "a.com"; models.Domain_IP := "10.0.0.1";
            models.Domain_Port := 8080; models.Domain_Protocol := "https";
            models.Domain_CreatedAt := 100; models.Domain_UpdatedAt := 100 |} ]
     = size (sql.table fixtures.storeWithA).
Proof.
  split.
  - rewrite (proj2 (listing_is_sorted_and_complete (fun ts => ts)
                      (snd (database.BulkCreateDomains
                              [fixtures.c_com; fixtures.b_com]
                              fixtures.storeWithA))) eq_refl).
    vm_compute. reflexivity.
  - apply (proj1 (listing_is_sorted_and_complete (fun ts => ts)
                    fixtures.storeWithA) _ fixtures.storeWithA).
    vm_compute. reflexivity.
Defined.

(** * Further properties of the management API *)

Section ApiChain.
Import models sql http props.

Lemma bearer_longer (key : string) : key <> "Bearer " +:+ key.
Proof.
  intros E. apply (f_equal String.length) in E.
  cbv beta iota delta [String.append] in E. cbn [String.length] in E. lia.
Qed.

Lemma host_allowed_or_differs (host allowed : string) :
  hostIsAllowed host allowed \/ strippedHostDiffers host allowed.
Proof.
  destruct (strings.containsByte ":" host) eqn:Hc.
  - apply split_at_last in Hc as (d & p & -> & Hp).
    destruct (decide (d = allowed)) as [->|Hne].
    + left. right. exists p. now split.
    + right. right. exists d, p. now repeat split.
  - destruct (decide (host = allowed)) as [->|Hne].
    + left. left. now split.
    + right. left. now split.
Qed.

Lemma allowed_host_stripped (host allowed : string) :
  hostIsAllowed host allowed -> proxy.domainName host = allowed.
Proof.
  intros [[Hc ->]|(p & Hp & ->)].
  - now apply domainName_without_colon.
  - now apply domainName_at_last_colon.
Qed.

Lemma AuthMiddleware_accepts key next r st :
  Authorization r = "Bearer " +:+ key ->
  api.AuthMiddleware (api.NewHandlers key) next r st = next r st.
Proof.
  intros Heq. unfold api.AuthMiddleware, api.NewHandlers. cbn [api.authToken].
  now rewrite Heq, String.eqb_refl.
Qed.

Lemma AuthMiddleware_rejects key next r st :
  Authorization r <> "Bearer " +:+ key ->
  api.AuthMiddleware (api.NewHandlers key) next r st
  = (Error "Unauthorized" StatusUnauthorized, st).
Proof.
  intros Hne. unfold api.AuthMiddleware, api.NewHandlers. cbn [api.authToken].
  apply String.eqb_neq in Hne. now rewrite Hne.
Qed.

(** X12. The authentication middleware of the handlers built from a key
    lets a request through only when its Authorization header is exactly
    "Bearer " followed by the key; any other header is answered
    Unauthorized without the next handler being run and with the store
    untouched, and that includes an absent header and the key sent
    without the prefix. *)
Theorem auth_middleware_requires_exact_bearer (key : string) (next : Handler)
    (r : Request) (st : Store) :
  (Authorization r = "Bearer " +:+ key ->
     api.AuthMiddleware (api.NewHandlers key) next r st = next r st)
  /\ (Authorization r <> "Bearer " +:+ key ->
      api.AuthMiddleware (api.NewHandlers key) next r st
      = (Error "Unauthorized" StatusUnauthorized, st))
  /\ (Authorization r = "" \/ Authorization r = key ->
      api.AuthMiddleware (api.NewHandlers key) next r st
      = (Error "Unauthorized" StatusUnauthorized, st)).
Proof.
  split; [apply AuthMiddleware_accepts|].
  split; [apply AuthMiddleware_rejects|].
  intros [Hempty|Hraw]; apply AuthMiddleware_rejects.
  - rewrite Hempty. discriminate.
  - rewrite Hraw. apply bearer_longer.
Qed.

Lemma auth_middleware_requires_exact_bearer_witness :
  api.AuthMiddleware (api.NewHandlers "my-secret-key")
    (api.CreateDomain fixtures.handlers) (fixtures.post fixtures.b_com)
    fixtures.storeWithA
  = api.CreateDomain fixtures.handlers (fixtures.post fixtures.b_com)
      fixtures.storeWithA
  /\ api.AuthMiddleware (api.NewHandlers "my-secret-key")
       (api.CreateDomain fixtures.handlers) fixtures.inbound
       fixtures.storeWithA
     = (Error "Unauthorized" StatusUnauthorized, fixtures.storeWithA).
Proof.
  split.
  - apply (proj1 (auth_middleware_requires_exact_bearer "my-secret-key"
                    (api.CreateDomain fixtures.handlers)
                    (fixtures.post fixtures.b_com) fixtures.storeWithA)).
    reflexivity.
  - apply (proj2 (proj2 (auth_middleware_requires_exact_bearer "my-secret-key"
                           (api.CreateDomain fixtures.handlers)
                           fixtures.inbound fixtures.storeWithA))).
    left. reflexivity.
Defined.

(** X13. Every host either names the administrative domain (alone or
    with a port) or differs from it once stripped; for a host that names
    it, the chain of the [/api] routes runs the route's handler exactly
    when the Authorization header is "Bearer " followed by the
    configured key, and answers Unauthorized with the store untouched
    otherwise. *)
Theorem api_chain_reaches_route_with_both (cfg : main.Config)
    (route : api.Handlers -> Handler) (r : Request) (st : Store) :
  (hostIsAllowed (Host r) (main.APIDomain cfg)
   \/ strippedHostDiffers (Host r) (main.APIDomain cfg))
  /\ (hostIsAllowed (Host r) (main.APIDomain cfg) ->
      Authorization r = "Bearer " +:+ main.ProxyAPIKey cfg ->
      main.apiRouter cfg route r st
      = route (api.NewHandlers (main.ProxyAPIKey cfg)) r st)
  /\ (hostIsAllowed (Host r) (main.APIDomain cfg) ->
      Authorization r <> "Bearer " +:+ main.ProxyAPIKey cfg ->
      main.apiRouter cfg route r st
      = (Error "Unauthorized" StatusUnauthorized, st)).
Proof.
  split; [apply host_allowed_or_differs|].
  assert (Hpass : hostIsAllowed (Host r) (main.APIDomain cfg) ->
            forall next, api.DomainMiddleware (main.APIDomain cfg) next r st
                         = next r st).
  { intros Hok next. unfold api.DomainMiddleware.
    change (if negb (Z.eqb (strings.LastIndex (Host r) ":") (-1))
            then strings.sliceTo (Host r) (strings.LastIndex (Host r) ":")
            else Host r)
      with (proxy.domainName (Host r)).
    now rewrite (allowed_host_stripped _ _ Hok), String.eqb_refl. }
  split; intros Hok Hauth; unfold main.apiRouter; rewrite (Hpass Hok).
  - now apply AuthMiddleware_accepts.
  - now apply AuthMiddleware_rejects.
Qed.

Lemma api_chain_reaches_route_with_both_witness :
  main.apiRouter
    {| main.ProxyAPIKey := "my-secret-key";
       main.APIDomain := "api.example.com";
       main.DBPath := "data/proxy.db"; main.Port := 80;
       main.Debug := false |}
    api.CreateDomain (fixtures.post fixtures.b_com) fixtures.storeWithA
  = api.CreateDomain fixtures.handlers (fixtures.post fixtures.b_com)
      fixtures.storeWithA
  /\ main.apiRouter
       {| main.ProxyAPIKey := "other-key";
          main.APIDomain := "api.example.com";
          main.DBPath := "data/proxy.db"; main.Port := 80;
          main.Debug := false |}
       api.CreateDomain (fixtures.post fixtures.b_com) fixtures.storeWithA
     = (Error "Unauthorized" StatusUnauthorized, fixtures.storeWithA).
Proof.
  split.
  - apply (proj1 (proj2 (api_chain_reaches_route_with_both
                           {| main.ProxyAPIKey := "my-secret-key";
                              main.APIDomain := "api.example.com";
                              main.DBPath := "data/proxy.db"; main.Port := 80;
                              main.Debug := false |}
                           api.CreateDomain (fixtures.post fixtures.b_com)
                           fixtures.storeWithA))).
    + left. split; reflexivity.
    + reflexivity.
  - apply (proj2 (proj2 (api_chain_reaches_route_with_both
                           {| main.ProxyAPIKey := "other-key";
                              main.APIDomain := "api.example.com";
                              main.DBPath := "data/proxy.db"; main.Port := 80;
                              main.Debug := false |}
                           api.CreateDomain (fixtures.post fixtures.b_com)
                           fixtures.storeWithA))).
    + left. split; reflexivity.
    + discriminate.
Defined.

End ApiChain.

Section ApiHandlers.
Import models sql http props.

Lemma GetAllDomains_sameData parseListed st r st' :
  database.GetAllDomains parseListed st = (r, st') -> sameData st st'.
Proof.
  unfold database.GetAllDomains, bind, wrap, Query, RowsErr, bind.
  destruct (driver st) as [[[]|e] st1] eqn:Hd1;
    pose proof (driver_sameData _ _ _ Hd1) as Hs1.
  - destruct (driver st1) as [[[]|e] st2] eqn:Hd2;
      pose proof (driver_sameData _ _ _ Hd2) as Hs2;
      intros [= _ <-]; eapply sameData_trans; eassumption.
  - now intros [= _ <-].
Qed.

Lemma CreateDomain_duplicate req st row st1 :
  table st !! Create_Domain req = Some row -> driver st = (Ok tt, st1) ->
  database.CreateDomain req st
  = (Err ("failed to create domain: " +:+ ErrUnique), st1).
Proof.
  intros Hrow Hd. unfold database.CreateDomain, bind, wrap, ExecInsert, bind.
  rewrite Hd. pose proof (driver_sameData _ _ _ Hd) as [Ht _].
  unfold insert_row. now rewrite Ht, Hrow.
Qed.

Lemma clientError_not_500 : ~ clientError StatusInternalServerError.
Proof. unfold clientError, StatusInternalServerError. lia. Qed.

Lemma clientError_not_2xx code : code < 400 -> ~ clientError code.
Proof. unfold clientError. lia. Qed.

(** X14. A management request that is answered with a status of the
    class 4xx has not changed the registry, whichever of the handlers
    for creation, bulk creation, update, deletion or lookup served it. *)
Theorem client_errors_leave_registry_unchanged (h : api.Handlers)
    (r : Request) (st : Store) :
  (clientError (StatusCode (fst (api.CreateDomain h r st))) ->
     table (snd (api.CreateDomain h r st)) = table st)
  /\ (clientError (StatusCode (fst (api.BulkCreateDomains h r st))) ->
      table (snd (api.BulkCreateDomains h r st)) = table st)
  /\ (clientError (StatusCode (fst (api.UpdateDomain h r st))) ->
      table (snd (api.UpdateDomain h r st)) = table st)
  /\ (clientError (StatusCode (fst (api.DeleteDomain h r st))) ->
      table (snd (api.DeleteDomain h r st)) = table st)
  /\ (clientError (StatusCode (fst (api.GetDomain h r st))) ->
      table (snd (api.GetDomain h r st)) = table st).
Proof.
  split; [|split; [|split; [|split]]].
  - unfold api.CreateDomain.
    destruct (asCreate (Body r)) as [req|e]; [|reflexivity].
    destruct (api.missingFields req); [reflexivity|].
    destruct (database.CreateDomain _ st) as [[d|e] st']; cbn [fst snd StatusCode Error JSON];
      intros H.
    + now apply clientError_not_2xx in H.
    + now apply clientError_not_500 in H.
  - unfold api.BulkCreateDomains.
    destruct (readAll (Body r)); [|reflexivity].
    destruct (match asArray (Body r) with
              | Ok domains => Some domains
              | Err _ => match asBulk (Body r) with
                         | Err _ => None
                         | Ok req => Some (Bulk_Domains req)
                         end
              end) as [[|req0 rest]|]; [reflexivity| |reflexivity].
    destruct (api.validateAll (req0 :: rest) 0) as [j|domains]; [reflexivity|].
    destruct (database.BulkCreateDomains domains st) as [[l|e] st'];
      cbn [fst snd StatusCode Error JSON]; intros H.
    + now apply clientError_not_2xx in H.
    + now apply clientError_not_500 in H.
  - unfold api.UpdateDomain.
    destruct (pathDomain (Body r)) as [domain|e]; [|reflexivity].
    destruct (asUpdate (Body r)) as [req|e]; [|reflexivity].
    destruct (String.eqb (Update_IP req) "" || Z.eqb (Update_Port req) 0);
      [reflexivity|].
    destruct (database.UpdateDomain domain _ st) as [[[d|]|e] st'] eqn:Hrun;
      cbn [fst snd StatusCode Error JSON]; intros H.
    + now apply clientError_not_2xx in H.
    + now apply UpdateDomain_None_unchanged in Hrun.
    + now apply clientError_not_500 in H.
  - unfold api.DeleteDomain.
    destruct (pathDomain (Body r)) as [domain|e]; [|reflexivity].
    destruct (database.DeleteDomain domain st) as [[[]|e] st'] eqn:Hrun.
    + cbn [fst snd StatusCode]. intros H. now apply clientError_not_2xx in H.
    + apply DeleteDomain_table in Hrun as [[Ht _]|(_ & Hr & _)];
        [|discriminate Hr].
      destruct (String.eqb e "domain not found"); intros _; exact Ht.
  - intros _. unfold api.GetDomain.
    destruct (pathDomain (Body r)) as [domain|e]; [|reflexivity].
    destruct (database.GetDomain domain st) as [[[d|]|e] st'] eqn:Hrun;
      cbn [snd]; now apply GetDomain_sameData in Hrun as [Ht _].
Qed.

Lemma client_errors_leave_registry_unchanged_witness :
  table (snd (api.CreateDomain fixtures.handlers (fixtures.post fixtures.no_ip)
                fixtures.storeWithA)) = table fixtures.storeWithA
  /\ table (snd (api.BulkCreateDomains fixtures.handlers (fixtures.postBulk [])
                   fixtures.storeWithA)) = table fixtures.storeWithA
  /\ table (snd (api.UpdateDomain fixtures.handlers
                   (fixtures.put "b.com" fixtures.updateWithoutScheme)
                   fixtures.storeWithA)) = table fixtures.storeWithA
  /\ table (snd (api.DeleteDomain fixtures.handlers
                   (fixtures.put "b.com" fixtures.updateWithoutScheme)
                   fixtures.storeWithA)) = table fixtures.storeWithA
  /\ table (snd (api.GetDomain fixtures.handlers
                   (fixtures.put "b.com" fixtures.updateWithoutScheme)
                   fixtures.storeWithA)) = table fixtures.storeWithA.
Proof.
  split; [|split; [|split; [|split]]].
  - apply (proj1 (client_errors_leave_registry_unchanged fixtures.handlers
                    (fixtures.post fixtures.no_ip) fixtures.storeWithA)).
    vm_compute. split; [discriminate|reflexivity].
  - apply (proj1 (proj2 (client_errors_leave_registry_unchanged
                           fixtures.handlers (fixtures.postBulk [])
                           fixtures.storeWithA))).
    vm_compute. split; [discriminate|reflexivity].
  - apply (proj1 (proj2 (proj2 (client_errors_leave_registry_unchanged
                                  fixtures.handlers
                                  (fixtures.put "b.com"
                                     fixtures.updateWithoutScheme)
                                  fixtures.storeWithA)))).
    vm_compute. split; [discriminate|reflexivity].
  - apply (proj1 (proj2 (proj2 (proj2 (client_errors_leave_registry_unchanged
                                         fixtures.handlers
                                         (fixtures.put "b.com"
                                            fixtures.updateWithoutScheme)
                                         fixtures.storeWithA))))).
    vm_compute. split; [discriminate|reflexivity].
  - apply (proj2 (proj2 (proj2 (proj2 (client_errors_leave_registry_unchanged
                                         fixtures.handlers
                                         (fixtures.put "b.com"
                                            fixtures.updateWithoutScheme)
                                         fixtures.storeWithA))))).
    vm_compute. split; [discriminate|reflexivity].
Defined.

End ApiHandlers.

Section ApiStatuses.
Import models sql http props.

(** X15. On an engine that works, a lookup, an update (with address and
    port given) or a deletion through the API of a domain that is not
    stored is answered Not Found with the text "Domain not found", and
    the store is left exactly as it was. *)
Theorem unknown_domain_is_not_found (h : api.Handlers) (r : Request)
    (st : Store) (domain : string) :
  faults st = [] -> pathDomain (Body r) = Ok domain ->
  table st !! domain = None ->
  api.GetDomain h r st = (Error "Domain not found" StatusNotFound, st)
  /\ api.DeleteDomain h r st = (Error "Domain not found" StatusNotFound, st)
  /\ (forall req, asUpdate (Body r) = Ok req ->
      Update_IP req <> "" -> Update_Port req <> 0 ->
      api.UpdateDomain h r st = (Error "Domain not found" StatusNotFound, st)).
Proof.
  intros Hf Hpath Hnone. split; [|split].
  - unfold api.GetDomain. rewrite Hpath, (GetDomain_quiet _ _ Hf), Hnone.
    reflexivity.
  - unfold api.DeleteDomain. rewrite Hpath.
    unfold database.DeleteDomain, bind, wrap, ExecDelete, bind.
    rewrite (driver_quiet _ Hf). unfold delete_row. rewrite Hnone. cbn.
    clear. now destruct st.
  - intros req Hreq Hip Hport. unfold api.UpdateDomain.
    rewrite Hpath, Hreq. apply String.eqb_neq in Hip. apply Z.eqb_neq in Hport.
    rewrite Hip, Hport. cbn [orb].
    now rewrite (UpdateDomain_quiet_missing _ _ _ Hf Hnone).
Qed.

Lemma unknown_domain_is_not_found_witness :
  api.GetDomain fixtures.handlers
    (fixtures.put "b.com" fixtures.updateWithoutScheme) fixtures.storeWithA
  = (Error "Domain not found" StatusNotFound, fixtures.storeWithA)
  /\ api.UpdateDomain fixtures.handlers
       (fixtures.put "b.com" fixtures.updateWithoutScheme) fixtures.storeWithA
     = (Error "Domain not found" StatusNotFound, fixtures.storeWithA).
Proof.
  destruct (unknown_domain_is_not_found fixtures.handlers
              (fixtures.put "b.com" fixtures.updateWithoutScheme)
              fixtures.storeWithA "b.com") as (Hget & _ & Hput).
  - reflexivity.
  - reflexivity.
  - vm_compute. reflexivity.
  - split; [exact Hget|].
    apply (Hput fixtures.updateWithoutScheme); [reflexivity|discriminate|discriminate].
Defined.

(** X16. A creation request with all required fields for a domain that
    is already stored is answered with status 500, the text carrying the
    driver's UNIQUE-constraint error, and the table is left as it was. *)
Theorem duplicate_creation_is_server_error (h : api.Handlers) (r : Request)
    (st st1 : Store) (req : CreateDomainRequest) (row : Row) :
  asCreate (Body r) = Ok req -> ~ fieldMissing req ->
  table st !! Create_Domain req = Some row ->
  driver st = (Ok tt, st1) ->
  api.CreateDomain h r st
  = (Error ("Failed to create domain: failed to create domain: " +:+ ErrUnique)
       StatusInternalServerError, st1)
  /\ table st1 = table st.
Proof.
  intros Hreq Hcomplete Hrow Hd. split.
  - unfold api.CreateDomain. rewrite Hreq.
    destruct (api.missingFields req) eqn:Hm.
    { now apply missingFields_spec in Hm. }
    rewrite normalized_eq.
    now rewrite (CreateDomain_duplicate (normalized req) st row st1).
  - now apply driver_sameData in Hd as [Ht _].
Qed.

Lemma duplicate_creation_is_server_error_witness :
  StatusCode (fst (api.CreateDomain fixtures.handlers
                     (fixtures.post fixtures.a_com) fixtures.storeWithA))
  = 500
  /\ table fixtures.storeWithA = table fixtures.storeWithA.
Proof.
  destruct (duplicate_creation_is_server_error fixtures.handlers
              (fixtures.post fixtures.a_com) fixtures.storeWithA
              fixtures.storeWithA fixtures.a_com
              {| ip := "10.0.0.1"; port := 8080; protocol := "https";
                 created_at := 100; updated_at := 100 |}) as [Hrun Ht].
  - reflexivity.
  - intros [H|[H|H]]; discriminate H.
  - vm_compute. reflexivity.
  - reflexivity.
  - split; [now rewrite Hrun|exact Ht].
Defined.

Lemma validateAll_first batch : forall (i : Z) (n : nat) req,
  batch !! n = Some req -> fieldMissing req ->
  (forall m req', (m < n)%nat -> batch !! m = Some req' -> ~ fieldMissing req') ->
  api.validateAll batch i = inl (i + Z.of_nat n).
Proof.
  induction batch as [|x rest IH]; intros i n req Hn Hbad Hbefore.
  - discriminate.
  - cbn [api.validateAll]. destruct n as [|n].
    + injection Hn as ->. apply missingFields_spec in Hbad. rewrite Hbad.
      f_equal. lia.
    + destruct (api.missingFields x) eqn:Hx.
      { exfalso. apply (Hbefore 0%nat x); [lia|reflexivity|].
        now apply missingFields_spec. }
      rewrite (IH (i + 1) n req Hn Hbad).
      * f_equal. lia.
      * intros m req' Hm Hreq'. apply (Hbefore (S m) req'); [lia|assumption].
Qed.

(** X17. A bulk request in which some record lacks a required field is
    answered Bad Request with the position, counted from 0, of the first
    such record in the text, and the store is left exactly as it was. *)
Theorem bulk_validation_names_first_incomplete (h : api.Handlers)
    (r : Request) (st : Store) (batch : list CreateDomainRequest) (n : nat)
    (req : CreateDomainRequest) :
  bulkBody r batch -> batch !! n = Some req -> fieldMissing req ->
  (forall m req', (m < n)%nat -> batch !! m = Some req' -> ~ fieldMissing req') ->
  api.BulkCreateDomains h r st
  = (Error ("Missing required fields in domain at index "
              +:+ pretty (Z.of_nat n) +:+ ": domain, ip, port")
       StatusBadRequest, st).
Proof.
  intros (Hread & Hbody) Hn Hbad Hbefore. unfold api.BulkCreateDomains.
  rewrite Hread.
  assert (Hdec : match asArray (Body r) with
                 | Ok domains => Some domains
                 | Err _ => match asBulk (Body r) with
                            | Err _ => None
                            | Ok req => Some (Bulk_Domains req)
                            end
                 end = Some batch).
  { destruct Hbody as [->|[(e & ->) ->]]; reflexivity. }
  rewrite Hdec. destruct batch as [|req0 rest]; [discriminate|].
  now rewrite (validateAll_first (req0 :: rest) 0 n req Hn Hbad Hbefore).
Qed.

Lemma bulk_validation_names_first_incomplete_witness :
  api.BulkCreateDomains fixtures.handlers
    (fixtures.postBulk [fixtures.b_com; fixtures.no_port; fixtures.no_ip])
    fixtures.storeWithA
  = (Error "Missing required fields in domain at index 1: domain, ip, port"
       StatusBadRequest, fixtures.storeWithA).
Proof.
  apply (bulk_validation_names_first_incomplete fixtures.handlers
           (fixtures.postBulk [fixtures.b_com; fixtures.no_port; fixtures.no_ip])
           fixtures.storeWithA
           [fixtures.b_com; fixtures.no_port; fixtures.no_ip] 1
           fixtures.no_port).
  - split; [reflexivity|left; reflexivity].
  - reflexivity.
  - right. right. reflexivity.
  - intros m req' Hm Hreq'. destruct m as [|m]; [|lia].
    injection Hreq' as <-. intros [H|[H|H]]; discriminate H.
Defined.

(** X18. The handlers that read, the lookup of one domain and the
    listing, never change the table, whatever they answer; and on an
    engine that works the listing is answered OK with the stored domains
    in increasing order of their names. *)
Theorem read_handlers_never_write (parseListed : Time -> Time)
    (h : api.Handlers) (r : Request) (st : Store) :
  table (snd (api.GetDomain h r st)) = table st
  /\ table (snd (api.ListDomains parseListed h r st)) = table st
  /\ (faults st = [] ->
      api.ListDomains parseListed h r st
      = (JSON StatusOK
           (JSONDomains (map (database.listedDomain parseListed)
                           (orderByDomain (table st)))), st)).
Proof.
  split; [|split].
  - unfold api.GetDomain.
    destruct (pathDomain (Body r)) as [domain|e]; [|reflexivity].
    destruct (database.GetDomain domain st) as [[[d|]|e] st'] eqn:Hrun;
      cbn [snd]; now apply GetDomain_sameData in Hrun as [Ht _].
  - unfold api.ListDomains.
    destruct (database.GetAllDomains parseListed st) as [[l|e] st'] eqn:Hrun;
      cbn [snd]; now apply GetAllDomains_sameData in Hrun as [Ht _].
  - intros Hf. unfold api.ListDomains, database.GetAllDomains, bind, wrap,
      Query, RowsErr, bind.
    rewrite (driver_quiet _ Hf). cbn iota beta.
    rewrite (driver_quiet _ Hf). reflexivity.
Qed.

Lemma read_handlers_never_write_witness :
  fst (api.ListDomains (fun ts => ts) fixtures.handlers fixtures.inbound
         fixtures.storeWithA)
  = JSON StatusOK
      (JSONDomains
         [ {| Domain_Domain := "a.com"; Domain_IP := "10.0.0.1";
              Domain_Port := 8080; Domain_Protocol := "https";
              Domain_CreatedAt := 100; Domain_UpdatedAt := 100 |} ]).
Proof.
  rewrite (proj2 (proj2 (read_handlers_never_write (fun ts => ts)
                           fixtures.handlers fixtures.inbound
                           fixtures.storeWithA)) eq_refl).
  vm_compute. reflexivity.
Defined.

End ApiStatuses.

(** * Further properties of the dispatcher *)

Section DispatcherOutcomes.
Import models sql http props.

Variable url_Parse : string -> result URL.
Variable RoundTrip : Request -> result Response.

(** X19. The dispatcher never writes: whatever the request, the
    registry's table and clock after it has been served are those
    before. *)
Theorem dispatcher_never_writes (r : Request) (st : Store) :
  sameData st (snd (proxy.ServeHTTP url_Parse RoundTrip r st)).
Proof.
  unfold proxy.ServeHTTP. destruct (String.eqb (Host r) "");
    [apply sameData_refl|].
  destruct (database.GetDomain _ st) as [[[d|]|e] st'] eqn:Hget;
    apply GetDomain_sameData in Hget; [|assumption|assumption].
  now destruct (url_Parse _).
Qed.

(** X20. The outcomes of the dispatcher before the backend is contacted:
    a request without host is answered Bad Request and no lookup is made
    (the store, with the engine's schedule, is untouched); a failing
    lookup is answered with status 500; a domain that is not stored with
    Not Found; a target that does not parse with status 500; and when
    the backend answers, its response is relayed as it is. *)
Theorem dispatcher_outcomes (r : Request) (st : Store) :
  (Host r = "" ->
     proxy.ServeHTTP url_Parse RoundTrip r st
     = (Error "Missing Host header" StatusBadRequest, st))
  /\ (Host r <> "" -> forall e st',
      database.GetDomain (proxy.domainName (Host r)) st = (Err e, st') ->
      proxy.ServeHTTP url_Parse RoundTrip r st
      = (Error "Internal server error" StatusInternalServerError, st'))
  /\ (Host r <> "" -> forall st',
      database.GetDomain (proxy.domainName (Host r)) st = (Ok None, st') ->
      proxy.ServeHTTP url_Parse RoundTrip r st
      = (Error "Domain not found" StatusNotFound, st'))
  /\ (Host r <> "" -> forall d st' e,
      database.GetDomain (proxy.domainName (Host r)) st = (Ok (Some d), st') ->
      url_Parse (proxy.targetURL (proxy.defaultProtocol d)) = Err e ->
      proxy.ServeHTTP url_Parse RoundTrip r st
      = (Error "Invalid target configuration" StatusInternalServerError, st'))
  /\ (Host r <> "" -> forall d st' target res,
      database.GetDomain (proxy.domainName (Host r)) st = (Ok (Some d), st') ->
      url_Parse (proxy.targetURL (proxy.defaultProtocol d)) = Ok target ->
      RoundTrip (rewritten target r) = Ok res ->
      proxy.ServeHTTP url_Parse RoundTrip r st = (res, st')).
Proof.
  split; [|split; [|split; [|split]]].
  - intros Hhost. unfold proxy.ServeHTTP. now rewrite Hhost.
  - intros Hhost e st' Hget. unfold proxy.ServeHTTP.
    apply String.eqb_neq in Hhost. now rewrite Hhost, Hget.
  - intros Hhost st' Hget. unfold proxy.ServeHTTP.
    apply String.eqb_neq in Hhost. now rewrite Hhost, Hget.
  - intros Hhost d st' e Hget Hparse. unfold proxy.ServeHTTP.
    apply String.eqb_neq in Hhost. now rewrite Hhost, Hget, Hparse.
  - intros Hhost d st' target res Hget Hparse Hrt. unfold proxy.ServeHTTP.
    apply String.eqb_neq in Hhost. rewrite Hhost, Hget, Hparse.
    unfold proxy.ReverseProxy_ServeHTTP.
    change (proxy.Director target r r) with (rewritten target r).
    now rewrite Hrt.
Qed.

Lemma host_with_port_not_empty (d p : string) : d +:+ ":" +:+ p <> "".
Proof. destruct d; discriminate. Qed.

(** X21. The port of the Host header has no influence: two requests that
    differ only in the port suffix of their host, or in having one, are
    served in the same way, with the same request sent to the same
    backend. *)
Theorem port_suffix_does_not_matter (r : Request) (st : Store)
    (d p1 p2 : string) :
  strings.containsByte ":" p1 = false -> strings.containsByte ":" p2 = false ->
  proxy.ServeHTTP url_Parse RoundTrip (withHost r (d +:+ ":" +:+ p1)) st
  = proxy.ServeHTTP url_Parse RoundTrip (withHost r (d +:+ ":" +:+ p2)) st
  /\ (d <> "" -> strings.containsByte ":" d = false ->
      proxy.ServeHTTP url_Parse RoundTrip (withHost r (d +:+ ":" +:+ p1)) st
      = proxy.ServeHTTP url_Parse RoundTrip (withHost r d) st).
Proof.
  intros Hp1 Hp2.
  assert (Hserve : forall host, host <> "" -> proxy.domainName host = d ->
    proxy.ServeHTTP url_Parse RoundTrip (withHost r host) st
    = match database.GetDomain d st with
      | (Err _, st') =>
          (Error "Internal server error" StatusInternalServerError, st')
      | (Ok None, st') => (Error "Domain not found" StatusNotFound, st')
      | (Ok (Some domain), st') =>
          match url_Parse (proxy.targetURL (proxy.defaultProtocol domain)) with
          | Err _ =>
              (Error "Invalid target configuration" StatusInternalServerError,
               st')
          | Ok target =>
              (match RoundTrip (rewritten target r) with
               | Ok res => res
               | Err err => proxy.ErrorHandler (rewritten target r) err
               end, st')
          end
      end).
  { intros host Hne Hkey. unfold proxy.ServeHTTP. cbn [Host withHost].
    apply String.eqb_neq in Hne. rewrite Hne, Hkey. reflexivity. }
  split.
  - rewrite !Hserve; [reflexivity| | | | ];
      first [apply host_with_port_not_empty
            |now apply domainName_at_last_colon].
  - intros Hd Hc. rewrite !Hserve; [reflexivity| | | | ];
      first [assumption|apply host_with_port_not_empty
            |now apply domainName_at_last_colon
            |now apply domainName_without_colon].
Qed.

End DispatcherOutcomes.

Lemma dispatcher_outcomes_witness :
  proxy.ServeHTTP fixtures.parse fixtures.backendUp
    (props.withHost fixtures.inbound "") fixtures.storeBroken
  = (http.Error "Missing Host header" http.StatusBadRequest,
     fixtures.storeBroken)
  /\ proxy.ServeHTTP fixtures.parse fixtures.backendUp fixtures.inbound
       fixtures.storeBroken
     = (http.Error "Internal server error" http.StatusInternalServerError,
        fixtures.storeWithExample)
  /\ proxy.ServeHTTP fixtures.parse fixtures.backendUp fixtures.inbound
       fixtures.storeWithA
     = (http.Error "Domain not found" http.StatusNotFound, fixtures.storeWithA)
  /\ proxy.ServeHTTP (fun _ => Err "invalid port") fixtures.backendUp
       fixtures.inbound fixtures.storeWithExample
     = (http.Error "Invalid target configuration"
          http.StatusInternalServerError, fixtures.storeWithExample)
  /\ proxy.ServeHTTP fixtures.parse fixtures.backendUp fixtures.inbound
       fixtures.storeWithExample
     = ({| http.StatusCode := 200; http.ContentType := "text/html";
           http.Written := http.Stream "served /a/b" |},
        fixtures.storeWithExample).
Proof.
  split; [|split; [|split; [|split]]].
  - apply (proj1 (dispatcher_outcomes fixtures.parse fixtures.backendUp
                    (props.withHost fixtures.inbound "") fixtures.storeBroken)).
    reflexivity.
  - destruct (dispatcher_outcomes fixtures.parse fixtures.backendUp
                fixtures.inbound fixtures.storeBroken) as (_ & H & _).
    eapply H; [discriminate|vm_compute; reflexivity].
  - destruct (dispatcher_outcomes fixtures.parse fixtures.backendUp
                fixtures.inbound fixtures.storeWithA) as (_ & _ & H & _).
    eapply H; [discriminate|vm_compute; reflexivity].
  - destruct (dispatcher_outcomes (fun _ => Err "invalid port")
                fixtures.backendUp fixtures.inbound fixtures.storeWithExample)
      as (_ & _ & _ & H & _).
    eapply H; [discriminate|vm_compute; reflexivity|reflexivity].
  - destruct (dispatcher_outcomes fixtures.parse fixtures.backendUp
                fixtures.inbound fixtures.storeWithExample)
      as (_ & _ & _ & _ & H).
    eapply (H ltac:(discriminate) _ _ fixtures.backend);
      [vm_compute; reflexivity|reflexivity|reflexivity].
Defined.

Lemma port_suffix_does_not_matter_witness :
  proxy.ServeHTTP fixtures.parse fixtures.backendUp
    (props.withHost fixtures.inbound "example.com:8443") fixtures.storeWithExample
  = proxy.ServeHTTP fixtures.parse fixtures.backendUp
      (props.withHost fixtures.inbound "example.com") fixtures.storeWithExample.
Proof.
  apply (proj2 (port_suffix_does_not_matter fixtures.parse fixtures.backendUp
                  fixtures.inbound fixtures.storeWithExample
                  "example.com" "8443" "80" eq_refl eq_refl));
    [discriminate|reflexivity].
Defined.

Section HostsWithColon.
Import models sql http props.

Lemma length_append (a b : string) :
  String.length (a +:+ b) = (String.length a + String.length b)%nat.
Proof.
  induction a as [|c a IH]; [reflexivity|].
  change (String c a +:+ b) with (String c (a +:+ b)). cbn [String.length].
  now rewrite IH.
Qed.

(** X22. A host that contains a colon is never looked up under its own
    name: the routing key is strictly shorter than the host.  So a
    record stored under a name with a colon, an IPv6 literal or a name
    registered with its port, is not found by a request whose host is
    exactly that name. *)
Theorem host_with_colon_is_shortened (host : string) :
  strings.containsByte ":" host = true ->
  (String.length (proxy.domainName host) < String.length host)%nat
  /\ proxy.domainName host <> host.
Proof.
  intros Hc. apply split_at_last in Hc as (d & p & -> & Hp).
  change (String ":" p) with (":" +:+ p).
  rewrite (domainName_at_last_colon d p Hp).
  assert (Hlen : (String.length d < String.length (d +:+ ":" +:+ p))%nat).
  { rewrite length_append. change (":" +:+ p) with (String ":" p).
    cbn [String.length]. lia. }
  split; [assumption|]. intros E. rewrite <- E in Hlen. lia.
Qed.

Lemma host_with_colon_is_shortened_witness :
  proxy.domainName "[::1]" <> "[::1]"
  /\ proxy.domainName "example.com:8443" <> "example.com:8443".
Proof.
  split.
  - apply (host_with_colon_is_shortened "[::1]"). reflexivity.
  - apply (host_with_colon_is_shortened "example.com:8443"). reflexivity.
Defined.

End HostsWithColon.

(** * Properties of the configuration and of the start *)

Section Configuration.
Import models sql http props.

Lemma existsb_eqb_In (s : string) (l : list string) :
  existsb (String.eqb s) l = true <-> In s l.
Proof.
  rewrite existsb_exists. split.
  - intros (x & Hin & Heq). apply String.eqb_eq in Heq. now subst.
  - intros Hin. exists s. split; [assumption|apply String.eqb_refl].
Qed.

(** X23. Of the settings read from the environment: the database path is
    never empty; debugging is on exactly when DEBUG is one of 1, t, T,
    TRUE, true, True; and the port is the value of PORT when that is a
    decimal integer of 64 bits, whatever its sign or size, and 80
    otherwise. *)
Theorem load_settings (env : gmap string string) :
  main.DBPath (config.Load env) <> ""
  /\ (main.Debug (config.Load env) = true <->
      In (config.Getenv env "DEBUG") ["1"; "t"; "T"; "TRUE"; "true"; "True"])
  /\ main.Port (config.Load env)
     = match strconv.Atoi (config.Getenv env "PORT") with
       | Ok port => port
       | Err _ => 80
       end.
Proof.
  split; [|split].
  - cbn [config.Load main.DBPath]. unfold config.getEnv.
    destruct (String.eqb_spec (config.Getenv env "DB_PATH") "") as [E|N];
      cbn [negb]; [discriminate|assumption].
  - cbn [config.Load main.Debug]. unfold config.getEnvAsBool, strconv.ParseBool.
    destruct (String.eqb_spec (config.Getenv env "DEBUG") "") as [E|N].
    + rewrite E. split; [intros H; discriminate H|]. cbn.
      intros [H|[H|[H|[H|[H|[H|[]]]]]]]; discriminate H.
    + destruct (existsb (String.eqb (config.Getenv env "DEBUG"))
                  ["1"; "t"; "T"; "TRUE"; "true"; "True"]) eqn:Ht.
      * split; [intros _|reflexivity]. now apply existsb_eqb_In.
      * assert (Hnot : ~ In (config.Getenv env "DEBUG")
                           ["1"; "t"; "T"; "TRUE"; "true"; "True"]).
        { intros Hin. apply existsb_eqb_In in Hin. congruence. }
        destruct (existsb (String.eqb (config.Getenv env "DEBUG"))
                    ["0"; "f"; "F"; "FALSE"; "false"; "False"]);
          (split; [intros H; discriminate H
                  |intros Hin; now apply Hnot in Hin]).
  - cbn [config.Load main.Port]. unfold config.getEnvAsInt.
    destruct (String.eqb_spec (config.Getenv env "PORT") "") as [->|N];
      reflexivity.
Qed.

Lemma bearer_alone_differs (key : string) :
  key <> "" -> "Bearer " <> "Bearer " +:+ key.
Proof.
  intros Hne E. cbv beta iota delta [String.append] in E.
  injection E as E. now subst.
Qed.

(** X24. The program starts only with a non-empty API key and a
    non-empty administrative domain: without the key, or with the key
    but without the domain, it stops with the message naming the
    missing variable before the database is touched; when it starts,
    the configuration is the one loaded from the environment, the stored
    records are those found, and no request whose Authorization header
    is "Bearer " alone reaches a management route (it is answered
    Unauthorized or Forbidden, the store untouched). *)
Theorem start_requires_key_and_domain (env : gmap string string) (st : Store) :
  (config.Getenv env "PROXY_API_KEY" = "" ->
     cmd.init env st
     = (Err "PROXY_API_KEY environment variable is required", st))
  /\ (config.Getenv env "PROXY_API_KEY" <> "" ->
      config.Getenv env "PROXY_API_DOMAIN" = "" ->
      cmd.init env st
      = (Err "PROXY_API_DOMAIN environment variable is required", st))
  /\ (forall cfg st', cmd.init env st = (Ok cfg, st') ->
      cfg = config.Load env
      /\ main.ProxyAPIKey cfg <> "" /\ main.APIDomain cfg <> ""
      /\ sameData st st'
      /\ forall route r st2,
           Authorization r = "Bearer " ->
           main.apiRouter cfg route r st2
           = (Error "Unauthorized" StatusUnauthorized, st2)
           \/ main.apiRouter cfg route r st2
              = (Error "Forbidden: API access restricted to specific domain"
                   StatusForbidden, st2)).
Proof.
  split; [|split].
  - intros Hkey. unfold cmd.init. cbn [config.Load main.ProxyAPIKey].
    now rewrite Hkey.
  - intros Hkey Hdom. unfold cmd.init.
    cbn [config.Load main.ProxyAPIKey main.APIDomain].
    apply String.eqb_neq in Hkey. now rewrite Hkey, Hdom.
  - intros cfg st'. unfold cmd.init.
    destruct (String.eqb_spec (main.ProxyAPIKey (config.Load env)) "")
      as [_|Hkey]; [discriminate|].
    destruct (String.eqb_spec (main.APIDomain (config.Load env)) "")
      as [_|Hdom]; [discriminate|].
    intros H. apply bind_Ok in H as (u & st1 & Hnew & Hret).
    injection Hret as <- <-.
    apply wrap_Ok, wrap_Ok, driver_sameData in Hnew.
    split; [reflexivity|]. split; [assumption|]. split; [assumption|].
    split; [assumption|].
    intros route r st2 Hauth. unfold main.apiRouter.
    destruct (host_allowed_or_differs (Host r) (main.APIDomain (config.Load env)))
      as [Hok|Hdiff].
    + left. unfold api.DomainMiddleware.
      change (if negb (Z.eqb (strings.LastIndex (Host r) ":") (-1))
              then strings.sliceTo (Host r) (strings.LastIndex (Host r) ":")
              else Host r)
        with (proxy.domainName (Host r)).
      rewrite (allowed_host_stripped _ _ Hok), String.eqb_refl. cbn [negb].
      apply AuthMiddleware_rejects. rewrite Hauth.
      now apply bearer_alone_differs.
    + right. unfold api.DomainMiddleware.
      apply stripped_host_differs, String.eqb_neq in Hdiff.
      now rewrite Hdiff.
Qed.

End Configuration.

Lemma load_settings_witness :
  main.Debug (config.Load (<["DEBUG" := "yes"]> (<["PORT" := "8a"]> ∅))) = false
  /\ main.Port (config.Load (<["DEBUG" := "yes"]> (<["PORT" := "8a"]> ∅))) = 80.
Proof.
  destruct (load_settings (<["DEBUG" := "yes"]> (<["PORT" := "8a"]> ∅)))
    as (_ & Hdebug & Hport).
  split.
  - apply not_true_is_false. intros E.
    apply Hdebug in E. vm_compute in E.
    destruct E as [H|[H|[H|[H|[H|[H|[]]]]]]]; discriminate H.
  - rewrite Hport. vm_compute. reflexivity.
Defined.

Lemma start_requires_key_and_domain_witness :
  cmd.init (<["PROXY_API_DOMAIN" := "api.example.com"]> ∅) fixtures.storeWithA
  = (Err "PROXY_API_KEY environment variable is required", fixtures.storeWithA)
  /\ cmd.init (<["PROXY_API_KEY" := "my-secret-key"]> ∅) fixtures.storeWithA
     = (Err "PROXY_API_DOMAIN environment variable is required",
        fixtures.storeWithA)
  /\ main.ProxyAPIKey
       (config.Load (<["PROXY_API_KEY" := "my-secret-key"]>
                       (<["PROXY_API_DOMAIN" := "api.example.com"]> ∅)))
     <> "".
Proof.
  split; [|split].
  - apply (proj1 (start_requires_key_and_domain
                    (<["PROXY_API_DOMAIN" := "api.example.com"]> ∅)
                    fixtures.storeWithA)).
    vm_compute. reflexivity.
  - apply (proj1 (proj2 (start_requires_key_and_domain
                           (<["PROXY_API_KEY" := "my-secret-key"]> ∅)
                           fixtures.storeWithA))).
    + vm_compute. discriminate.
    + vm_compute. reflexivity.
  - destruct (proj2 (proj2 (start_requires_key_and_domain
                (<["PROXY_API_KEY" := "my-secret-key"]>
                   (<["PROXY_API_DOMAIN" := "api.example.com"]> ∅))
                fixtures.storeWithA))
                (config.Load (<["PROXY_API_KEY" := "my-secret-key"]>
                                (<["PROXY_API_DOMAIN" := "api.example.com"]> ∅)))
                fixtures.storeWithA) as (_ & Hkey & _).
    + vm_compute. reflexivity.
    + exact Hkey.
Defined.
